(** * Self-expanding neural networks: the growth engine of [experiment2_fixed.py]

    A shallow embedding of the architecture template, the proposer, the batch
    sampler, the two feature optimizers' step-size controllers, the growth
    gates with their post-commit sanity checks, and the checkpoint restore of
    [senn_mlp/experiment2_fixed.py], followed by the properties of the
    specification that were checked against them.

    Conventions of the embedding.
    - Python [int] is [Z]; [Optional[int]] is [option Z]; sequences are lists.
    - A Python exception is a value of [exn]; a call that may raise returns
      [res A].
    - A [jnp] floating-point scalar is a value of [fl]: an exact rational or
      one of the special values [+inf], [-inf], [nan].  Rounding is not
      modelled and zero carries no sign (it divides like [+0.0]).
    - The network library [nets] (layers, null masks, parameter surgery) is
      not part of the embedded file; the operations the code calls on it are
      the members of the class [Nets]. *)

From Stdlib Require Import QArith Qabs Qpower Lqa.
From stdpp Require Import base list gmap strings pretty.

(** ** Python exceptions and fallible results *)

Inductive exn : Type :=
  | AssertionError (msg : string)
  | IndexError
  | KeyError (key : string)
  | ZeroDivisionError
  | SystemExit.

Inductive res (A : Type) : Type :=
  | Ok (a : A)
  | Raise (e : exn).
Arguments Ok {A} a.
Arguments Raise {A} e.

#[global] Instance res_ret : MRet res := fun _ a => Ok a.
#[global] Instance res_bind : MBind res := fun _ _ f m =>
  match m with
  | Ok a => f a
  | Raise e => Raise e
  end.
#[global] Instance res_fmap : FMap res := fun _ _ f m =>
  match m with
  | Ok a => Ok (f a)
  | Raise e => Raise e
  end.

(** The message of an [assert] that is written without one. *)
Definition no_message : string := EmptyString.

(** [assert cond, msg] *)
Definition py_assert (cond : bool) (msg : string) : res unit :=
  if cond then Ok () else Raise (AssertionError msg).

(** ** Python sequence indexing and slicing with integer bounds *)

Module Py.

(** [l[:k]] *)
Definition slice_to {A} (l : list A) (k : Z) : list A :=
  if (0 <=? k)%Z then take (Z.to_nat k) l
  else take (length l - Z.to_nat (- k)) l.

(** [l[k:]] *)
Definition slice_from {A} (l : list A) (k : Z) : list A :=
  if (0 <=? k)%Z then drop (Z.to_nat k) l
  else drop (length l - Z.to_nat (- k)) l.

(** The position that index [i] denotes in a sequence of length [n]:
    negative indices count from the end, anything else out of range
    raises [IndexError]. *)
Definition position (n : nat) (i : Z) : res nat :=
  if ((0 <=? i) && (i <? Z.of_nat n))%Z then Ok (Z.to_nat i)
  else if ((- Z.of_nat n <=? i) && (i <? 0))%Z then Ok (Z.to_nat (i + Z.of_nat n))
  else Raise IndexError.

(** [l[i]] *)
Definition getitem {A} (l : list A) (i : Z) : res A :=
  p ← position (length l) i;
  match l !! p with
  | Some x => Ok x
  | None => Raise IndexError
  end.

(** [l[i] = x] on a list *)
Definition setitem {A} (l : list A) (i : Z) (x : A) : res (list A) :=
  p ← position (length l) i;
  Ok (<[p := x]> l).

(** [range(n)] *)
Definition range (n : Z) : list Z := seqZ 0 n.

End Py.

(** ** Floating-point scalars *)

Module Fl.

Inductive fl : Type :=
  | Fin (q : Q)
  | PInf
  | NInf
  | NaN.

Definition of_Z (z : Z) : fl := Fin (inject_Z z).

Definition neg (x : fl) : fl :=
  match x with
  | Fin q => Fin (- q)
  | PInf => NInf
  | NInf => PInf
  | NaN => NaN
  end.

Definition abs (x : fl) : fl :=
  match x with
  | Fin q => Fin (Qabs q)
  | PInf | NInf => PInf
  | NaN => NaN
  end.

Definition add (x y : fl) : fl :=
  match x, y with
  | Fin a, Fin b => Fin (a + b)
  | NaN, _ | _, NaN => NaN
  | PInf, NInf | NInf, PInf => NaN
  | PInf, _ | _, PInf => PInf
  | NInf, _ | _, NInf => NInf
  end.

Definition sub (x y : fl) : fl := add x (neg y).

(** The sign of an infinity scaled by the finite factor [b]. *)
Definition scale_inf (pos : bool) (b : Q) : fl :=
  if Qeq_bool b 0 then NaN
  else if Bool.eqb pos (Qle_bool 0 b) then PInf else NInf.

Definition mul (x y : fl) : fl :=
  match x, y with
  | Fin a, Fin b => Fin (a * b)
  | NaN, _ | _, NaN => NaN
  | PInf, Fin b | Fin b, PInf => scale_inf true b
  | NInf, Fin b | Fin b, NInf => scale_inf false b
  | PInf, PInf | NInf, NInf => PInf
  | PInf, NInf | NInf, PInf => NInf
  end.

(** Division never raises: a zero divisor yields an infinity, or [nan]
    for [0/0]. *)
Definition div (x y : fl) : fl :=
  match x, y with
  | Fin a, Fin b =>
      if Qeq_bool b 0 then
        if Qeq_bool a 0 then NaN
        else if Qle_bool 0 a then PInf else NInf
      else Fin (a / b)
  | NaN, _ | _, NaN => NaN
  | Fin _, (PInf | NInf) => Fin 0
  | PInf, Fin b => if Qle_bool 0 b then PInf else NInf
  | NInf, Fin b => if Qle_bool 0 b then NInf else PInf
  | (PInf | NInf), (PInf | NInf) => NaN
  end.

(** Comparisons; every comparison with [nan] is false. *)
Definition ltb (x y : fl) : bool :=
  match x, y with
  | Fin a, Fin b => negb (Qle_bool b a)
  | NaN, _ | _, NaN => false
  | NInf, (Fin _ | PInf) => true
  | Fin _, PInf => true
  | _, _ => false
  end.

Definition leb (x y : fl) : bool :=
  match x, y with
  | Fin a, Fin b => Qle_bool a b
  | NaN, _ | _, NaN => false
  | NInf, _ => true
  | _, PInf => true
  | _, _ => false
  end.

Definition gtb (x y : fl) : bool := ltb y x.
Definition geb (x y : fl) : bool := leb y x.

(** [jnp.where(c, a, b)] on scalars *)
Definition where_ (c : bool) (a b : fl) : fl := if c then a else b.

End Fl.

Export Fl (fl, Fin, PInf, NInf, NaN).

(** ** Architecture template *)

Module ModelTemplate.

Record t : Type := Build {
  capacities : list Z;
  contents : list (option Z);
  rational : bool
}.

(** The positions [i, i+1, ...] of the entries of [arr] that satisfy [p],
    in increasing order. *)
Fixpoint positions_from (p : option Z -> bool) (i : nat)
    (arr : list (option Z)) : list nat :=
  match arr with
  | [] => []
  | d :: rest =>
      if p d then i :: positions_from p (S i) rest
      else positions_from p (S i) rest
  end.

Definition is_set (d : option Z) : bool :=
  match d with Some _ => true | None => false end.

(** [np.nonzero(arr != None)] *)
Definition nonzero (arr : list (option Z)) : list nat :=
  positions_from is_set 0 arr.

(** [[i for i, d in enumerate(self.contents) if d is not None]] *)
Definition enabled_layers (self : t) : list nat :=
  positions_from is_set 0 (contents self).

(** [[i for i, d in enumerate(self.contents) if d is None]] *)
Definition disabled_layers (self : t) : list nat :=
  positions_from (fun d => negb (is_set d)) 0 (contents self).

Definition in_out_indices (self : t) (layer_index : Z) : res (Z * Z) :=
  let conarr := contents self in
  let split_at := (layer_index + 1)%Z in
  let preceding_enabled :=
    nonzero (Py.slice_to (Py.slice_to conarr split_at) (-1)) in
  let in_index :=
    match last preceding_enabled with
    | None => 0%Z
    | Some p => (Z.of_nat p + 1)%Z
    end in
  let subsequent_enabled := nonzero (Py.slice_from conarr split_at) in
  match head subsequent_enabled with
  | None => Raise IndexError
  | Some s => Ok (in_index, (split_at + Z.of_nat s)%Z)
  end.

End ModelTemplate.

(** ** The network library, as the code uses it

    [State] is the variables dictionary of the model: a collection name
    (["params"], ...) maps to the per-layer subtrees, keyed ["layers_<i>"]. *)

Abbreviation State Params := (gmap string (gmap string Params)).

Class Nets (Params Feature : Type) : Type := {
  (** [model.apply(state, method=model.nulls)]: one null mask per layer *)
  nulls : State Params -> list (list bool);
  (** [lift(Layer.dormant)] at a layer index *)
  layer_dormant : State Params -> Z -> bool;
  (** [lift(Layer.null)] at a layer index *)
  layer_null : State Params -> Z -> list bool;
  (** [lift(Layer.insert_feature, feature, idx)]: the layer's variables
      with the feature spliced in at slot [idx] *)
  layer_insert_feature : State Params -> Z -> Feature -> nat -> gmap string Params;
  (** [lift(Layer.input_size)] at a layer index *)
  layer_input_size : State Params -> Z -> Z;
  (** the width [feature["params"]["linear"]["bias"].shape[-1]] *)
  feature_width : Feature -> Z;
  (** [nets.pad_axis] applied to the feature's basis and shift *)
  pad_feature : Feature -> Z -> Feature;
  (** [model.apply(state, dims, index, basis, shift, method=activate_layer)] *)
  activate_layer : State Params -> list (option Z) -> Z -> Feature -> State Params;
  (** the singular-value clipping of [make_invertible] *)
  make_invertible : Feature -> Feature
}.

(** ** Proposer *)

Module Proposer.

Section WithNets.
Context {Params Feature : Type} `{!Nets Params Feature}.

(** [jnp.sum(~n)] *)
Definition sum_not (n : list bool) : Z :=
  Z.of_nat (length (filter (fun b => b = false) n)).

(** [null.any()] *)
Definition any (null : list bool) : bool := existsb id null.

(** [null.argmax()]: the first position holding the maximum, that is the
    first [True], or 0 when every entry is [False]. *)
Fixpoint argmax (null : list bool) : nat :=
  match null with
  | [] => 0
  | true :: _ => 0
  | false :: rest => if any rest then S (argmax rest) else 0
  end.

(** [f"layers_{layer_index}"] *)
Definition layer_name (layer_index : Z) : string :=
  "layers_" +:+ pretty layer_index.

Definition embed_feature (state : State Params) (feature : Feature)
    (layer_index : Z) : res (State Params) :=
  _ ← py_assert (negb (layer_dormant state layer_index)) no_message;
  let null := layer_null state layer_index in
  _ ← py_assert (any null) no_message;
  let idx := argmax null in
  let name := layer_name layer_index in
  match layer_insert_feature state layer_index feature idx !! "params" with
  | None => Raise (KeyError "params")
  | Some inserted =>
      match state !! "params" with
      | None => Raise (KeyError "params")
      | Some params => Ok (<["params" := <[name := inserted]> params]> state)
      end
  end.

Definition embed_layer (template : ModelTemplate.t) (state : State Params)
    (feature : Feature) (layer_index : Z) : res (State Params) :=
  capacity ← Py.getitem (ModelTemplate.capacities template) layer_index;
  let pad_amount := (capacity - feature_width feature)%Z in
  _ ← py_assert (0 <=? pad_amount)%Z no_message;
  let padded := pad_feature feature pad_amount in
  Ok (activate_layer state (ModelTemplate.contents template) layer_index padded).

Definition get_input_size (state : State Params) (layer_index : Z) : Z :=
  layer_input_size state layer_index.

Definition get_input_null (state : State Params) (layer_index : Z) : list bool :=
  if (layer_index =? 0)%Z then
    replicate (Z.to_nat (get_input_size state 0)) false
  else layer_null state (layer_index - 1).

(** The message of the assertion in [verify_state]. *)
Definition mismatch_msg (i : nat) (c sum_not_null : Z) : string :=
  "content-null mismatch at layer " +:+ pretty i +:+ " with content "
    +:+ pretty c +:+ " and sum(~null) " +:+ pretty sum_not_null.

(** The loop of [verify_state] over [enumerate(zip(contents, nulls))],
    from position [i] on. *)
Fixpoint verify_from (i : nat) (pairs : list (option Z * list bool)) : res unit :=
  match pairs with
  | [] => Ok ()
  | (c, n) :: rest =>
      match c with
      | Some c =>
          let sum_not_null := sum_not n in
          _ ← py_assert (c =? sum_not_null)%Z (mismatch_msg i c sum_not_null);
          verify_from (S i) rest
      | None => verify_from (S i) rest
      end
  end.

Definition verify_state (template : ModelTemplate.t) (state : State Params) : res unit :=
  verify_from 0 (zip (ModelTemplate.contents template) (nulls state)).

End WithNets.

End Proposer.

(** ** Array indexing of [jnp] *)

Module Jnp.

(** [arr[i]] for a traced index [i] along the first axis: a negative index
    counts from the end and an index out of bounds is clamped to the nearest
    valid row.  Only an empty array has no row to return. *)
Definition take_row {A} (arr : list A) (i : Z) : option A :=
  let n := Z.of_nat (length arr) in
  let i := if (i <? 0)%Z then (i + n)%Z else i in
  arr !! Z.to_nat (Z.max 0 (Z.min i (n - 1))).

(** [arr[indices, ...]] *)
Definition gather {A} (arr : list A) (indices : list Z) : res (list A) :=
  match mapM (take_row arr) indices with
  | Some rows => Ok rows
  | None => Raise IndexError
  end.

End Jnp.

(** ** Pseudo-random key streams *)

Module KeyIter.

(** [jaxutils.key_iter(seed)]: an endless generator of keys, here the keys
    it will produce and how many have been drawn. *)
Record t (Key : Type) : Type := Build {
  keys : nat -> Key;
  drawn : nat
}.
Arguments Build {Key} keys drawn.
Arguments keys {Key} _ _.
Arguments drawn {Key} _.

(** [next(key_iter)] *)
Definition next {Key} (it : t Key) : Key * t Key :=
  (keys it (drawn it), Build (keys it) (S (drawn it))).

End KeyIter.

(** ** Batch sampler *)

Module Sampler.

Record t (Key A B : Type) : Type := Build {
  key_iter : KeyIter.t Key;
  dataset : list A;
  labels : list B;
  batch_size : option Z
}.
Arguments Build {Key A B} key_iter dataset labels batch_size.
Arguments key_iter {Key A B} _.
Arguments dataset {Key A B} _.
Arguments labels {Key A B} _.
Arguments batch_size {Key A B} _.

(** [a // b] on Python integers *)
Definition floordiv (a b : Z) : res Z :=
  if (b =? 0)%Z then Raise ZeroDivisionError else Ok (a `div` b)%Z.

Section WithPermutation.
Context {Key A B : Type}.

(** [jax.random.permutation(key, n)] *)
Variable permutation : Key -> Z -> list Z.

Definition num_batches (self : t Key A B) : res Z :=
  match batch_size self with
  | None => Ok 1%Z
  | Some batch_size =>
      let DLEN := Z.of_nat (length (dataset self)) in
      floordiv DLEN batch_size
  end.

(** [pindices[batch_num * batch_size :][: batch_size]] *)
Definition bindices (pindices : list Z) (batch_size batch_num : Z) : list Z :=
  Py.slice_to (Py.slice_from pindices (batch_num * batch_size)) batch_size.

(** The batches the generator yields when it is run to exhaustion, and the
    key stream it leaves behind. *)
Definition batches (self : t Key A B)
    : res (list (list A * list B) * KeyIter.t Key) :=
  match batch_size self with
  | None => Ok ([(dataset self, labels self)], key_iter self)
  | Some batch_size =>
      let DLEN := Z.of_nat (length (dataset self)) in
      let '(key, key_iter') := KeyIter.next (key_iter self) in
      let pindices := permutation key DLEN in
      num_batches ← floordiv DLEN batch_size;
      yielded ← mapM (fun batch_num =>
          let bindices := bindices pindices batch_size batch_num in
          bdataset ← Jnp.gather (dataset self) bindices;
          blabels ← Jnp.gather (labels self) bindices;
          Ok (bdataset, blabels))
        (Py.range num_batches);
      Ok (yielded, key_iter')
  end.

End WithPermutation.

End Sampler.

(** ** [jax.lax] loops *)

Module Lax.

(** [jax.lax.scan(f, init, xs)] *)
Fixpoint scan {S X Y} (f : S -> X -> S * Y) (init : S) (xs : list X) : S * list Y :=
  match xs with
  | [] => (init, [])
  | x :: rest =>
      let '(s, y) := f init x in
      let '(final, ys) := scan f s rest in
      (final, y :: ys)
  end.

(** The iterations [lower, lower + n) of a [fori_loop]. *)
Fixpoint fori_iter {S} (n : nat) (lower : Z) (body_fun : Z -> S -> S) (val : S) : S :=
  match n with
  | O => val
  | Datatypes.S n' => fori_iter n' (lower + 1)%Z body_fun (body_fun lower val)
  end.

(** [jax.lax.fori_loop(lower, upper, body_fun, init_val)] *)
Definition fori_loop {S} (lower upper : Z) (body_fun : Z -> S -> S) (init_val : S) : S :=
  fori_iter (Z.to_nat (upper - lower)) lower body_fun init_val.

End Lax.

(** ** Feature optimizer, MALA variant *)

Module Mala.

Record State (Feat : Type) : Type := Build {
  lr : fl;
  rscore : fl;
  feature : Feat
}.
Arguments Build {Feat} lr rscore feature.
Arguments lr {Feat} _.
Arguments rscore {Feat} _.
Arguments feature {Feat} _.

Definition TARGET : fl := Fin 0.6.

Section WithBurst.
Context {Feat Key : Type}.

(** [kfac_mala_burst] on the curvature snapshot of the call: from a feature,
    a key and a step size to the new r-score, the new feature and the
    acceptance rate of the burst. *)
Variable kfac_mala_burst : Feat -> Key -> fl -> fl * Feat * fl.

(** [jax.random.split(key, n)] *)
Variable split : Key -> nat -> list Key.

(** [layer_baseline(A, G, lin_grad)] and the [loss_sqnorm] of [kfac_observe] *)
Variables layer_score loss_sqnorm : fl.

(** The scanned function [fun] of [kfac_direct_mala]. *)
Definition burst_fun (state : State Feat) (key : Key) : State Feat * fl :=
  let '(new_rscore, new_feature, accept_rate) :=
    kfac_mala_burst (feature state) key (lr state) in
  let changed_lr :=
    Fl.where_ (Fl.gtb accept_rate TARGET)
      (Fl.mul (lr state) (Fin 1.3)) (Fl.div (lr state) (Fin 1.3)) in
  let new_lr :=
    Fl.where_ (Fl.gtb (Fl.abs (Fl.sub accept_rate TARGET)) (Fin 0.3))
      changed_lr (lr state) in
  (Build new_lr new_rscore new_feature, accept_rate).

Definition init_state (lr : fl) (feature : Feat) : State Feat :=
  Build lr (Fin 0) feature.

Definition kfac_direct_mala (feature : Feat) (lr : fl) (steps : nat) (key : Key)
    : fl * Feat * fl * fl :=
  let '(final_state, accepts) :=
    Lax.scan burst_fun (init_state lr feature) (split key steps) in
  (rscore final_state, Mala.feature final_state, layer_score, loss_sqnorm).

End WithBurst.

End Mala.

(** ** Feature optimizer, deterministic variant *)

Module Sgd.

Record State (Feat : Type) : Type := Build {
  eps : fl;
  rscore : fl;
  feature : Feat
}.
Arguments Build {Feat} eps rscore feature.
Arguments eps {Feat} _.
Arguments rscore {Feat} _.
Arguments feature {Feat} _.

Section WithStep.
Context {Feat : Type}.

(** [kfac_single_sgd] on the curvature snapshot of the call: from a feature
    and a step size to the r-score of the feature and the stepped feature. *)
Variable kfac_single_sgd : Feat -> fl -> fl * Feat.

Variables layer_score loss_sqnorm : fl.

(** [body_fun] closes over the argument [eps] of [kfac_direct_sgd]. *)
Definition body_fun (eps : fl) (_ : Z) (state : State Feat) : State Feat :=
  let '(new_rscore, new_feature) :=
    kfac_single_sgd (feature state) (Sgd.eps state) in
  let rscore_increased := Fl.gtb (Fl.div new_rscore (rscore state)) (Fin 1) in
  Build (Fl.where_ rscore_increased eps (Fl.div eps (Fin 3)))
    new_rscore new_feature.

Definition init_state (eps : fl) (feature : Feat) : State Feat :=
  Build eps (Fin 0) feature.

Definition kfac_direct_sgd (feature : Feat) (eps : fl) (steps : Z)
    : fl * Feat * fl * fl :=
  let final_state := Lax.fori_loop 0 steps (body_fun eps) (init_state eps feature) in
  (rscore final_state, Sgd.feature final_state, layer_score, loss_sqnorm).

End WithStep.

End Sgd.

(** ** Locating a one-dimensional feature *)

Module Locate.

Record Equivariant : Type := BuildEquivariant {
  w_const : list fl;
  w_lin : list fl;
  w_vec : list fl
}.

Record Linear : Type := BuildLinear {
  bias : list fl;
  kernel : list (list fl)
}.

(** The tree [{"params": {"equivariant_0": ..., "linear": ...}}] *)
Record Feature : Type := BuildFeature {
  equivariant_0 : Equivariant;
  linear : Linear
}.




End Locate.

(** ** Growth decisions and their commits

    The closures of [main] share the solver, the template and two counters;
    [World] is that shared store and [Run] threads it through a call that
    may raise.  A raised exception leaves the store as it was at the point
    of the raise. *)

Module Growth.

Record World (Params : Type) : Type := BuildWorld {
  solver_state : State Params;
  template : ModelTemplate.t;
  save_index : Z;
  just_added : bool
}.
Arguments BuildWorld {Params} solver_state template save_index just_added.
Arguments solver_state {Params} _.
Arguments template {Params} _.
Arguments save_index {Params} _.
Arguments just_added {Params} _.

Definition Run (Params A : Type) : Type := World Params -> res A * World Params.

#[global] Instance run_ret Params : MRet (Run Params) := fun _ a w => (Ok a, w).
#[global] Instance run_bind Params : MBind (Run Params) := fun _ _ f m w =>
  match m w with
  | (Ok a, w') => f a w'
  | (Raise e, w') => (Raise e, w')
  end.

Definition lift {Params A} (r : res A) : Run Params A := fun w => (r, w).
Definition get {Params} : Run Params (World Params) := fun w => (Ok w, w).

(** [exit()] *)
Definition exit {Params A} : Run Params A := lift (Raise SystemExit).

Definition set_solver_state {Params} (s : State Params) : Run Params unit :=
  fun w => (Ok (), BuildWorld s (template w) (save_index w) (just_added w)).

Definition set_contents {Params} (c : list (option Z)) : Run Params unit :=
  fun w =>
    let t := template w in
    let t' := ModelTemplate.Build (ModelTemplate.capacities t) c (ModelTemplate.rational t) in
    (Ok (), BuildWorld (solver_state w) t' (save_index w) (just_added w)).

Definition set_save_index {Params} (n : Z) : Run Params unit :=
  fun w => (Ok (), BuildWorld (solver_state w) (template w) n (just_added w)).

Definition set_just_added {Params} (b : bool) : Run Params unit :=
  fun w => (Ok (), BuildWorld (solver_state w) (template w) (save_index w) b).

Record WidthModification (Params : Type) : Type := BuildWidth {
  width_ratio : fl;
  width_layer_index : Z;
  width_new_state : State Params
}.
Arguments BuildWidth {Params} _ _ _.
Arguments width_ratio {Params} _.
Arguments width_layer_index {Params} _.
Arguments width_new_state {Params} _.

Record DepthModification (Params : Type) : Type := BuildDepth {
  depth_ratio : fl;
  depth_layer_index : Z;
  depth_new_state : State Params
}.
Arguments BuildDepth {Params} _ _ _.
Arguments depth_ratio {Params} _.
Arguments depth_layer_index {Params} _.
Arguments depth_new_state {Params} _.

(** The entries of [cfg["evo"]] the gates read. *)
Record Config : Type := BuildConfig {
  thresh : fl;
  abs_thresh : fl;
  layer_abs_thresh : fl;
  layer_cost_mul : fl;
  size_costing : bool
}.

(** What the Observe, Propose, Refine, Select and Validate stages hand to
    the gate: the softmax-weighted score [best_raw], the layer baseline
    [layer_score] and [loss_sqnorm] of the evaluator, the baseline
    [vlayer_score] of the validator, the solver's [baseline], and the
    selected candidate. *)
Record Selection (Feature : Type) : Type := BuildSelection {
  best_raw : fl;
  layer_score : fl;
  loss_sqnorm : fl;
  vlayer_score : fl;
  baseline : fl;
  best_feature : Feature
}.
Arguments BuildSelection {Feature} _ _ _ _ _ _.
Arguments best_raw {Feature} _.
Arguments layer_score {Feature} _.
Arguments loss_sqnorm {Feature} _.
Arguments vlayer_score {Feature} _.
Arguments baseline {Feature} _.
Arguments best_feature {Feature} _.

(** The step-size update of the proposal loop [step] inside
    [consider_adding_width] and [consider_inserting_layer]:
    [jnp.where(inc, state.epss, state.epss / 3.0)] with
    [inc = rmetrics > state.rmetrics], for one candidate. *)
Definition step_eps (rmetric prev_rmetric eps : fl) : fl :=
  let inc := Fl.gtb rmetric prev_rmetric in
  Fl.where_ inc eps (Fl.div eps (Fin 3)).

Section WithSolver.
Context {Params Feature : Type} `{!Nets Params Feature}.

(** [solver.batch_loss(state, dataset, labels)] on the training set *)
Variable batch_loss : State Params -> fl.

(** The candidate pipelines, from the solver state, the site and its input
    boundary (and, for a layer, its size) to what the gate reads. *)
Variable propose_width : State Params -> Z -> Z -> Selection Feature.
Variable propose_layer : State Params -> Z -> Z -> Z -> Selection Feature.

Variable cfg : Config.

(** [solver.train_batch((dataset, labels), observe_only=True, loud=True)] *)
Definition train_batch_loud : Run Params fl :=
  w ← get; mret (batch_loss (solver_state w)).

(** [refresh_evaluators]: every dormant site, and every other site unless
    [layer_only], has its evaluator rebuilt, which looks up the site's
    boundaries.  The evaluators themselves are compiled closures and are
    not part of the store. *)
Definition refresh_evaluators (layer_only : bool) : Run Params unit :=
  w ← get;
  let sites := imap (fun i con => (Z.of_nat i, con))
                 (Py.slice_to (ModelTemplate.contents (template w)) (-1)) in
  _ ← lift (mapM (fun '(layer_index, con) =>
      match con with
      | None => ModelTemplate.in_out_indices (template w) layer_index
      | Some _ =>
          if layer_only then Ok (0%Z, 0%Z)
          else ModelTemplate.in_out_indices (template w) layer_index
      end) sites);
  mret ().

Definition WidthModification_apply (self : WidthModification Params) : Run Params unit :=
  w ← get;
  c ← lift (Py.getitem (ModelTemplate.contents (template w)) (width_layer_index self));
  _ ← lift (py_assert (ModelTemplate.is_set c) no_message);
  prev_loss ← train_batch_loud;
  _ ← set_solver_state (width_new_state self);
  (* [c] is set, by the assertion above *)
  let new_size := (default 0 c + 1)%Z in
  contents' ← lift (Py.setitem (ModelTemplate.contents (template w))
                      (width_layer_index self) (Some new_size));
  _ ← set_contents contents';
  _ ← refresh_evaluators true;
  new_loss ← train_batch_loud;
  lift (py_assert (Fl.ltb (Fl.div new_loss prev_loss) (Fin 1.001))
          "adding width made loss worse").

Definition DepthModification_apply (self : DepthModification Params) : Run Params unit :=
  w ← get;
  let layer_index := depth_layer_index self in
  c ← lift (Py.getitem (ModelTemplate.contents (template w)) layer_index);
  _ ← lift (py_assert (negb (ModelTemplate.is_set c)) no_message);
  prev_loss ← train_batch_loud;
  _ ← set_solver_state (depth_new_state self);
  new_size ←
    (if (0 <? layer_index)%Z then
       lift (Py.getitem (ModelTemplate.contents (template w)) (layer_index - 1))
     else mret (Some (Proposer.get_input_size (depth_new_state self) 0)));
  contents' ← lift (Py.setitem (ModelTemplate.contents (template w))
                      layer_index new_size);
  _ ← set_contents contents';
  _ ← refresh_evaluators false;
  new_loss ← train_batch_loud;
  if Fl.geb (Fl.div new_loss prev_loss) (Fin 1.2) then
    lift (py_assert (Fl.ltb (Fl.div new_loss prev_loss) (Fin 1.2))
            "adding layer made loss worse")
  else mret ().

(** The gate of [consider_adding_width]. *)
Definition going_to_add (sel : Selection Feature) : bool :=
  let best_local_ratio := Fl.div (best_raw sel) (layer_score sel) in
  Fl.gtb best_local_ratio (thresh cfg)
  && Fl.gtb (Fl.div (best_raw sel) (loss_sqnorm sel)) (abs_thresh cfg).

Definition consider_adding_width (is_final : bool) (layer_index : Z)
    : Run Params (option (WidthModification Params)) :=
  w ← get;
  '(in_index, out_index) ← lift (ModelTemplate.in_out_indices (template w) layer_index);
  let sel := propose_width (solver_state w) layer_index in_index in
  let best_ratio := Fl.add (Fin 1) (Fl.div (best_raw sel) (baseline sel)) in
  let going_to_add := going_to_add sel in
  _ ← (if (going_to_add || just_added w || is_final) && (layer_index =? 0)%Z then
         _ ← set_just_added false;
         _ ← set_save_index (save_index w + 1);
         if (25 <=? save_index w + 1)%Z then exit else mret ()
       else mret ());
  if going_to_add then
    new_state ← lift (Proposer.embed_feature (solver_state w) (best_feature sel) layer_index);
    mret (Some (BuildWidth best_ratio layer_index new_state))
  else mret None.

(** The cost-adjusted metric of [consider_inserting_layer]. *)
Definition adjusted_metric (sel : Selection Feature) (new_layer_size : Z) : fl :=
  let cost_mul := layer_cost_mul cfg in
  let cost_mul :=
    if size_costing cfg then Fl.mul cost_mul (Fl.of_Z new_layer_size) else cost_mul in
  Fl.div (best_raw sel) cost_mul.

(** The gate of [consider_inserting_layer]. *)
Definition going_to_insert (sel : Selection Feature) (new_layer_size : Z) : bool :=
  let adjusted_metric := adjusted_metric sel new_layer_size in
  Fl.gtb (Fl.div adjusted_metric (vlayer_score sel)) (thresh cfg)
  && Fl.gtb (Fl.div adjusted_metric (loss_sqnorm sel)) (layer_abs_thresh cfg).

Definition consider_inserting_layer (layer_index : Z)
    : Run Params (option (DepthModification Params)) :=
  w ← get;
  c ← lift (Py.getitem (ModelTemplate.contents (template w)) layer_index);
  _ ← lift (py_assert (negb (ModelTemplate.is_set c)) no_message);
  '(in_index, out_index) ← lift (ModelTemplate.in_out_indices (template w) layer_index);
  let new_layer_size :=
    Proposer.sum_not (Proposer.get_input_null (solver_state w) in_index) in
  let sel := propose_layer (solver_state w) layer_index in_index new_layer_size in
  let best_feature := make_invertible (best_feature sel) in
  let adjusted_metric := adjusted_metric sel new_layer_size in
  if going_to_insert sel new_layer_size then
    new_state ← lift (Proposer.embed_layer (template w) (solver_state w)
                        best_feature layer_index);
    let adjusted_ratio := Fl.add (Fin 1) (Fl.div adjusted_metric (baseline sel)) in
    mret (Some (BuildDepth adjusted_ratio layer_index new_state))
  else mret None.

End WithSolver.

End Growth.

(** ** Restoring a checkpoint at start-up *)

Module Checkpoint.

Record TrainState (Params : Type) : Type := BuildTrainState {
  epoch : Z;
  contents : list (option Z);
  solver_state : State Params
}.
Arguments BuildTrainState {Params} _ _ _.
Arguments epoch {Params} _.
Arguments contents {Params} _.
Arguments solver_state {Params} _.

(** What start-up leaves behind: the train state, the solver's state and
    the template's contents. *)
Record Started (Params : Type) : Type := BuildStarted {
  initial_train_state : TrainState Params;
  started_state : State Params;
  started_contents : list (option Z)
}.
Arguments BuildStarted {Params} _ _ _.
Arguments initial_train_state {Params} _.
Arguments started_state {Params} _.
Arguments started_contents {Params} _.

(** [a != b] on template entries *)
Definition differs (a b : option Z) : bool := bool_decide (a <> b).

Section WithCheckpoints.
Context {Params : Type}.

(** [checkpoints.restore_checkpoint(ckpt_dir, target)] *)
Variable restore_checkpoint : TrainState Params -> TrainState Params.

(** The start-up of [main] from the construction of the initial train
    state to the end of the restore branch; [enable] and [restore] are the
    two [cfg["checkpointing"]] switches. *)
Definition restore_at_startup (enable restore : bool)
    (initial_contents : list (option Z)) (solver_state0 : State Params)
    : res (Started Params) :=
  let initial_train_state := BuildTrainState 0%Z initial_contents solver_state0 in
  if enable && restore then
    let initial_train_state := restore_checkpoint initial_train_state in
    lhs ← Py.getitem (contents initial_train_state) (-1);
    rhs ← Py.getitem (contents initial_train_state) (-1);
    if differs lhs rhs then Raise SystemExit
    else Ok (BuildStarted initial_train_state
               (solver_state initial_train_state)
               (contents initial_train_state))
  else Ok (BuildStarted initial_train_state solver_state0 initial_contents).

End WithCheckpoints.

End Checkpoint.

(** ** A small network library to run the definitions on

    A layer's parameters are its slots, [None] for an allocated but
    inactive slot; a feature is the value of one slot. *)

Module Toy.

Definition slots (state : State (list (option Z))) (layer_index : Z) : list (option Z) :=
  default [] (state !! "params" ≫= fun params => params !! Proposer.layer_name layer_index).

Definition null_of (s : list (option Z)) : list bool :=
  (fun d => negb (ModelTemplate.is_set d)) <$> s.

Definition depth (state : State (list (option Z))) : Z :=
  Z.of_nat (size (default ∅ (state !! "params"))).

#[global] Instance toy_nets : Nets (list (option Z)) Z := {|
  nulls state := (fun i => null_of (slots state i)) <$> seqZ 0 (depth state);
  layer_dormant state i := forallb id (null_of (slots state i));
  layer_null state i := null_of (slots state i);
  layer_insert_feature state i feature idx :=
    {[ "params" := <[idx := Some feature]> (slots state i) ]};
  layer_input_size state i := 2%Z;
  feature_width feature := 1%Z;
  pad_feature feature pad_amount := feature;
  activate_layer state dims i feature :=
    <["params" := <[Proposer.layer_name i := [Some feature]]>
                    (default ∅ (state !! "params"))]> state;
  make_invertible feature := feature
|}.

(** A two-layer state: layer 0 holds two active slots and two free ones,
    layer 1 is the full output layer. *)
Definition state0 : State (list (option Z)) :=
  {[ "params" := {[ "layers_0" := [Some 5%Z; None; Some 7%Z; None];
                    "layers_1" := [Some 1%Z; Some 1%Z] ]} ]}.

Definition template0 : ModelTemplate.t :=
  ModelTemplate.Build [4%Z; 2%Z] [Some 2%Z; Some 2%Z] false.

End Toy.

(** ** Vocabulary of the statements *)

(** The set slots of a template, by integer position. *)
Definition enabled_at (self : ModelTemplate.t) (j : Z) : Prop :=
  (0 <= j)%Z /\ exists w, ModelTemplate.contents self !! Z.to_nat j = Some (Some w).

(** A template with two dormant slots between enabled ones. *)
Definition template_gap : ModelTemplate.t :=
  ModelTemplate.Build [4; 4; 4; 3; 2]%Z [Some 2; None; None; Some 3; Some 2]%Z false.

(** ** Synthetic inputs for the optimizers, the sampler and the restore *)

Module Synthetic.

(** A burst that reports the acceptance rate it is handed as its key. *)
Definition burst (feature : unit) (key : Q) (lr : fl) : fl * unit * fl :=
  (Fin 0, tt, Fin key).

(** The r-scores a deterministic run meets, step by step. *)
Definition scores : list Q := [1; 1 # 2; 3 # 4]%Q.

(** A deterministic step whose feature counts the steps taken. *)
Definition step (feature : nat) (eps : fl) : fl * nat :=
  (Fin (nth feature scores 0%Q), S feature).

(** A permutation generator: the index range in reverse. *)
Definition reversed (key : nat) (n : Z) : list Z := reverse (seqZ 0 n).

Definition sampler5 : Sampler.t nat Z bool :=
  Sampler.Build (KeyIter.Build (fun n => n) 0)
    [10; 11; 12; 13; 14]%Z [true; false; true; false; true] (Some 2%Z).



End Synthetic.

(** ** A small growth scenario *)

Module Scenario.

(** A loss that falls as slots of layer 0 are filled. *)
Definition loss (state : State (list (option Z))) : fl :=
  Fin (inject_Z (1 + Z.of_nat (length (filter (fun d => d = None) (Toy.slots state 0))))).

(** A selected candidate scoring twice its layer baseline. *)
Definition selection : Growth.Selection Z :=
  Growth.BuildSelection (Fin 2) (Fin 1) (Fin 1) (Fin 1) (Fin 1) 9%Z.

Definition propose_width (state : State (list (option Z))) (layer_index in_index : Z)
    : Growth.Selection Z := selection.

Definition propose_layer (state : State (list (option Z)))
    (layer_index in_index new_layer_size : Z) : Growth.Selection Z := selection.

Definition config : Growth.Config :=
  Growth.BuildConfig (Fin 1.5) (Fin 0.5) (Fin 0.5) (Fin 1) false.

(** The store with [save_index] landscapes already written. *)
Definition world (save_index : Z) : Growth.World (list (option Z)) :=
  Growth.BuildWorld Toy.state0 Toy.template0 save_index false.

(** A template with a dormant middle layer, and the store holding it. *)
Definition template_dormant : ModelTemplate.t :=
  ModelTemplate.Build [4%Z; 4%Z; 2%Z] [Some 2%Z; None; Some 2%Z] false.

Definition world_dormant : Growth.World (list (option Z)) :=
  Growth.BuildWorld Toy.state0 template_dormant 0%Z false.

(** The state with a feature spliced into the first free slot of layer 0. *)
Definition grown : State (list (option Z)) :=
  <["params" := {[ "layers_0" := [Some 5%Z; Some 9%Z; Some 7%Z; None];
                   "layers_1" := [Some 1%Z; Some 1%Z] ]}]> Toy.state0.

(** The state with every slot of layer 0 freed, which raises the loss. *)
Definition emptied : State (list (option Z)) :=
  <["params" := {[ "layers_0" := [None; None; None; None];
                   "layers_1" := [Some 1%Z; Some 1%Z] ]}]> Toy.state0.

(** Thresholds the selected candidate does not reach. *)
Definition strict_config : Growth.Config :=
  Growth.BuildConfig (Fin 5) (Fin 0.5) (Fin 0.5) (Fin 1) false.

End Scenario.

(** ** Solver: the check on the template at construction *)

Module Solver.

(** [all(x >= y for x, y in zip(seq, seq[1:]))] *)
Definition nonincreasing (seq : list Z) : bool :=
  forallb (fun '(x, y) => (y <=? x)%Z) (zip seq (Py.slice_from seq 1)).

(** [[c for c in self.template.contents if c is not None]] *)
Definition set_contents (contents : list (option Z)) : list Z :=
  omap id contents.

(** The assertion of [Solver.__init__] on the template's contents. *)
Definition check_contents (template : ModelTemplate.t) : res unit :=
  py_assert (nonincreasing (set_contents (ModelTemplate.contents template)))
    "model.restrict_params is broken for increasing feature sizes".

End Solver.

(** ** The regression loss

    Arrays here are rank-1 arrays of finite numbers; an operation on two of
    them broadcasts as [jnp] does, and [None] stands for the error raised
    on shapes that do not broadcast. *)

Module Regression.

(** [f(xs, ys)] elementwise, with broadcasting of a length-1 operand. *)
Definition broadcast2 (f : Q -> Q -> Q) (xs ys : list Q) : option (list Q) :=
  if decide (length xs = length ys) then Some (zip_with f xs ys)
  else match xs, ys with
       | [x], _ => Some (f x <$> ys)
       | _, [y] => Some ((fun x => f x y) <$> xs)
       | _, _ => None
       end.

(** [jnp.sum] *)
Definition sum (xs : list Q) : Q := foldr Qplus 0%Q xs.

(** [arr.mean()]: the mean of an empty array is [nan]. *)
Definition mean (xs : list Q) : fl :=
  Fl.div (Fin (sum xs)) (Fl.of_Z (Z.of_nat (length xs))).

(** [((output - label) ** 2).mean()] *)
Definition loss_function (label output : list Q) : option fl :=
  diff ← broadcast2 Qminus output label;
  Some (mean ((fun d => d ^ 2)%Q <$> diff)).

End Regression.

(** ** The experiment drivers: rewriting one entry of a configuration file

    A Python string is the list of its code points. *)

Module Str.

(** The code points that [str.strip()] removes. *)
Definition isspace (c : N) : bool :=
  (((9 <=? c) && (c <=? 13)) || ((28 <=? c) && (c <=? 32)) || (c =? 133)
   || (c =? 160) || (c =? 5760) || ((8192 <=? c) && (c <=? 8202))
   || (c =? 8232) || (c =? 8233) || (c =? 8239) || (c =? 8287)
   || (c =? 12288))%N.

(** Removal of the leading characters that satisfy [p]. *)
Fixpoint lstrip_by (p : N -> bool) (s : list N) : list N :=
  match s with
  | [] => []
  | c :: rest => if p c then lstrip_by p rest else s
  end.

(** Removal of the trailing characters that satisfy [p]. *)
Fixpoint rstrip_by (p : N -> bool) (s : list N) : list N :=
  match s with
  | [] => []
  | c :: rest =>
      match rstrip_by p rest with
      | [] => if p c then [] else [c]
      | kept => c :: kept
      end
  end.

(** [s.strip()] *)
Definition strip (s : list N) : list N :=
  rstrip_by isspace (lstrip_by isspace s).

(** [s.rstrip(chars)]: [chars] is a set of characters, not a suffix. *)
Definition rstrip (s chars : list N) : list N :=
  rstrip_by (fun c => bool_decide (c ∈ chars)) s.

(** [s.startswith(prefix)] *)
Fixpoint startswith (s prefix : list N) {struct prefix} : bool :=
  match prefix, s with
  | [], _ => true
  | _ :: _, [] => false
  | p :: prefix', c :: s' => (p =? c)%N && startswith s' prefix'
  end.

(** [s.split(sep, 1)[0]] for a separator of one character: the text before
    the first [sep], or all of [s] when it holds none. *)
Fixpoint before_first (sep : N) (s : list N) : list N :=
  match s with
  | [] => []
  | c :: rest => if (c =? sep)%N then [] else c :: before_first sep rest
  end.

(** The code points of an ASCII text. *)
Definition of_string (s : string) : list N :=
  Ascii.N_of_ascii <$> String.list_ascii_of_string s.

End Str.

Module Executer.

Definition colon : N := 58.
Definition space : N := 32.
Definition newline : N := 10.

(** [line.strip().startswith(start_string)] *)
Definition line_matches (start_string line : list N) : bool :=
  Str.startswith (Str.strip line) start_string.

(** The line written in place of a matching [line]:
    [f"{whitespace}{start_string}: {new_value}\n"], where [new_value] is
    the text the value formats to. *)
Definition new_line (start_string new_value line : list N) : list N :=
  let parts0 := Str.before_first colon line in
  let whitespace := Str.rstrip parts0 start_string in
  whitespace ++ start_string ++ [colon; space] ++ new_value ++ [newline].

(** [modify_yaml_line] on the lines read from the file; the result is the
    list of lines written back.  The loop stops at the first match. *)
Fixpoint modify_yaml_line (lines : list (list N)) (start_string new_value : list N)
    : list (list N) :=
  match lines with
  | [] => []
  | line :: rest =>
      if line_matches start_string line
      then new_line start_string new_value line :: rest
      else line :: modify_yaml_line rest start_string new_value
  end.

(** A configuration file and the entries [run_experiment] rewrites. *)
Definition config_lines : list (list N) :=
  [ Str.of_string "name: default" ++ [newline];
    Str.of_string "  seed: 0" ++ [newline];
    Str.of_string "  contents: [1]" ++ [newline] ].

End Executer.

(** * Properties *)

(** ** Architecture template: boundaries of a growth site *)

Module TemplateFacts.
Import ModelTemplate.

Lemma positions_nil_inv p i arr :
  positions_from p i arr = [] ->
  forall k d, arr !! k = Some d -> p d = false.
Proof.
  revert i. induction arr as [|d0 arr IH]; intros i Hnil k d Hk; [done|].
  simpl in Hnil. destruct (p d0) eqn:Hp; [done|].
  destruct k as [|k]; simpl in Hk; [by simplify_eq|]. eauto.
Qed.

Lemma positions_nil_intro p i arr :
  (forall k d, arr !! k = Some d -> p d = false) ->
  positions_from p i arr = [].
Proof.
  revert i. induction arr as [|d0 arr IH]; intros i Hall; [done|].
  simpl. rewrite (Hall 0%nat d0 eq_refl).
  apply IH. intros k d Hk. apply (Hall (S k) d Hk).
Qed.

Lemma positions_head p i arr j :
  head (positions_from p i arr) = Some j ->
  exists k d, j = (i + k)%nat /\ arr !! k = Some d /\ p d = true /\
    forall k' d', (k' < k)%nat -> arr !! k' = Some d' -> p d' = false.
Proof.
  revert i. induction arr as [|d0 arr IH]; intros i Hhd; [done|].
  simpl in Hhd. destruct (p d0) eqn:Hp.
  - simpl in Hhd. simplify_eq. exists 0%nat, d0.
    split; [lia|]. split; [done|]. split; [done|]. intros; lia.
  - destruct (IH _ Hhd) as (k & d & -> & Hk & Hd & Hbefore).
    exists (S k), d. split; [lia|]. split; [done|]. split; [done|].
    intros [|k'] d' Hlt Hk'; simpl in Hk'; [by simplify_eq|].
    apply (Hbefore k' d'); [lia|done].
Qed.

Lemma positions_last p i arr j :
  last (positions_from p i arr) = Some j ->
  exists k d, j = (i + k)%nat /\ arr !! k = Some d /\ p d = true /\
    forall k' d', (k < k')%nat -> arr !! k' = Some d' -> p d' = false.
Proof.
  revert i. induction arr as [|d0 arr IH]; intros i Hlast; [done|].
  simpl in Hlast. destruct (p d0) eqn:Hp.
  - rewrite last_cons in Hlast.
    destruct (last (positions_from p (S i) arr)) as [j'|] eqn:Hrest.
    + simplify_eq. destruct (IH _ Hrest) as (k & d & -> & Hk & Hd & Hafter).
      exists (S k), d. split; [lia|]. split; [done|]. split; [done|].
      intros [|k'] d' Hlt Hk'; [lia|]. apply (Hafter k' d'); [lia|done].
    + injection Hlast as <-. exists 0%nat, d0.
      split; [lia|]. split; [done|]. split; [done|].
      intros [|k'] d' Hlt Hk'; [lia|]. simpl in Hk'.
      apply last_None in Hrest. by eapply positions_nil_inv.
  - destruct (IH _ Hlast) as (k & d & -> & Hk & Hd & Hafter).
    exists (S k), d. split; [lia|]. split; [done|]. split; [done|].
    intros [|k'] d' Hlt Hk'; [lia|]. apply (Hafter k' d'); [lia|done].
Qed.

Lemma is_set_true d : is_set d = true <-> exists w, d = Some w.
Proof.
  destruct d as [w|]; simpl; split; try done.
  - by exists w.
  - by intros [w ?].
Qed.

End TemplateFacts.

(** C6.  For a site [layer_index] (a non-negative position) of a template
    that has an enabled slot after it, [in_out_indices] returns a pair
    [(in_index, out_index)] with [in_index <= layer_index < out_index],
    where [out_index] is the nearest enabled slot after the site (it is
    enabled and no slot strictly between is), and [in_index] is the input
    boundary derived from the nearest enabled slot before the site: every
    slot from [in_index] up to the site is disabled, and [in_index] is 0 or
    the position just after an enabled slot.  When no enabled slot follows
    the site the call fails with [IndexError]. *)
Theorem in_out_indices_spec (self : ModelTemplate.t) (layer_index : Z) :
  (0 <= layer_index)%Z ->
  ((exists j, (layer_index < j)%Z /\ enabled_at self j) ->
     exists in_index out_index,
       ModelTemplate.in_out_indices self layer_index = Ok (in_index, out_index)
       /\ (0 <= in_index <= layer_index)%Z /\ (layer_index < out_index)%Z
       /\ enabled_at self out_index
       /\ (forall j, (layer_index < j < out_index)%Z -> ~ enabled_at self j)
       /\ (forall j, (in_index <= j < layer_index)%Z -> ~ enabled_at self j)
       /\ (in_index = 0%Z \/ enabled_at self (in_index - 1)))
  /\ ((forall j, (layer_index < j)%Z -> ~ enabled_at self j) ->
      ModelTemplate.in_out_indices self layer_index = Raise IndexError).
Proof.
  intros Hli. set (n := Z.to_nat layer_index).
  assert (Hfrom : Py.slice_from (ModelTemplate.contents self) (layer_index + 1)
                  = drop (S n) (ModelTemplate.contents self)).
  { unfold Py.slice_from. rewrite (proj2 (Z.leb_le _ _)) by lia.
    f_equal. lia. }
  split.
  - intros (j & Hj & Hj0 & w & Hw).
    assert (Hlen : (S n < length (ModelTemplate.contents self))%nat).
    { apply lookup_lt_Some in Hw. lia. }
    assert (Hto : Py.slice_to (Py.slice_to (ModelTemplate.contents self) (layer_index + 1)) (-1)
                  = take n (ModelTemplate.contents self)).
    { unfold Py.slice_to. rewrite (proj2 (Z.leb_le 0 (layer_index + 1))) by lia.
      simpl. rewrite take_take, length_take. f_equal. lia. }
    unfold ModelTemplate.in_out_indices, ModelTemplate.nonzero.
    cbv zeta. rewrite Hfrom, Hto.
    destruct (head (ModelTemplate.positions_from ModelTemplate.is_set 0
                      (drop (S n) (ModelTemplate.contents self)))) as [s|] eqn:Hhd.
    2:{ exfalso. apply head_None in Hhd.
        pose proof (TemplateFacts.positions_nil_inv _ _ _ Hhd
                      (Z.to_nat j - S n)%nat (Some w)) as Hnone.
        rewrite lookup_drop in Hnone.
        replace (S n + (Z.to_nat j - S n))%nat with (Z.to_nat j) in Hnone by lia.
        by specialize (Hnone Hw). }
    apply TemplateFacts.positions_head in Hhd as (k & d & -> & Hk & Hd & Hbefore).
    rewrite lookup_drop in Hk. apply TemplateFacts.is_set_true in Hd as [w' ->].
    eexists _, _. split; [reflexivity|].
    assert (Hout : enabled_at self (layer_index + 1 + Z.of_nat (0 + k))).
    { split; [lia|]. exists w'. rewrite <- Hk. f_equal. lia. }
    assert (Hgap : forall j', (layer_index < j' < layer_index + 1 + Z.of_nat (0 + k))%Z ->
                     ~ enabled_at self j').
    { intros j' Hj' (_ & w'' & Hw'').
      specialize (Hbefore (Z.to_nat j' - S n)%nat (Some w'')).
      rewrite lookup_drop in Hbefore.
      replace (S n + (Z.to_nat j' - S n))%nat with (Z.to_nat j') in Hbefore by lia.
      discriminate Hbefore; [lia|done]. }
    destruct (last (ModelTemplate.positions_from ModelTemplate.is_set 0
                      (take n (ModelTemplate.contents self)))) as [p|] eqn:Hlast.
    + apply TemplateFacts.positions_last in Hlast as (k0 & d0 & -> & Hk0 & Hd0 & Hafter).
      apply TemplateFacts.is_set_true in Hd0 as [w0 ->].
      assert (Hk0n : (k0 < n)%nat).
      { apply lookup_lt_Some in Hk0. rewrite length_take in Hk0. lia. }
      rewrite lookup_take_lt in Hk0 by done.
      split; [lia|]. split; [lia|]. split; [done|]. split; [done|]. split.
      * intros j' Hj' (_ & w'' & Hw'').
        specialize (Hafter (Z.to_nat j') (Some w'')).
        rewrite lookup_take_lt in Hafter by lia.
        discriminate Hafter; [lia|done].
      * right. split; [lia|]. exists w0. rewrite <- Hk0. f_equal. lia.
    + apply last_None in Hlast.
      split; [lia|]. split; [lia|]. split; [done|]. split; [done|]. split.
      * intros j' Hj' (_ & w'' & Hw'').
        pose proof (TemplateFacts.positions_nil_inv _ _ _ Hlast
                      (Z.to_nat j') (Some w'')) as Hnone.
        rewrite lookup_take_lt in Hnone by lia. by specialize (Hnone Hw'').
      * by left.
  - intros Hnone. unfold ModelTemplate.in_out_indices, ModelTemplate.nonzero.
    cbv zeta. rewrite Hfrom.
    rewrite (TemplateFacts.positions_nil_intro ModelTemplate.is_set 0
               (drop (S n) (ModelTemplate.contents self))); [done|].
    intros k d Hk. rewrite lookup_drop in Hk.
    destruct d as [w|]; [|done]. exfalso.
    apply (Hnone (Z.of_nat (S n + k))); [lia|].
    split; [lia|]. exists w. by rewrite Nat2Z.id.
Qed.


Lemma in_out_indices_spec_witness :
  (0 <= 1)%Z
  /\ (exists j, (1 < j)%Z /\ enabled_at template_gap j)
  /\ exists in_index out_index,
       ModelTemplate.in_out_indices template_gap 1 = Ok (in_index, out_index)
       /\ (in_index <= 1 < out_index)%Z /\ enabled_at template_gap out_index.
Proof.
  assert (H0 : (0 <= 1)%Z) by lia.
  assert (H1 : exists j, (1 < j)%Z /\ enabled_at template_gap j).
  { exists 3%Z. split; [lia|]. split; [lia|]. by exists 3%Z. }
  split; [exact H0|]. split; [exact H1|].
  destruct (in_out_indices_spec template_gap 1 H0) as [Hsome _].
  destruct (Hsome H1) as (i & o & Heq & Hin & Hout & Hen & _).
  exists i, o. split; [exact Heq|]. split; [lia|exact Hen].
Defined.

(** A site after the last enabled slot has no output boundary, and a slot
    with nothing enabled before it has input boundary 0. *)
Example in_out_indices_examples :
  ModelTemplate.in_out_indices template_gap 4 = Raise IndexError
  /\ ModelTemplate.in_out_indices template_gap 0 = Ok (0%Z, 3%Z)
  /\ ModelTemplate.in_out_indices template_gap 2 = Ok (1%Z, 3%Z)
  /\ ModelTemplate.in_out_indices template_gap 3 = Ok (1%Z, 4%Z).
Proof. repeat split; reflexivity. Qed.

(** A negative index is not a site: the slices then count from the end,
    and for -1 the whole template counts as following slots. *)
Remark in_out_indices_negative_index :
  ModelTemplate.in_out_indices template_gap (-1) = Ok (0%Z, 0%Z).
Proof. reflexivity. Qed.

(** ** Proposer: the content/null invariant and feature embedding *)

Section ProposerFacts.
Context {Params Feature : Type} `{!Nets Params Feature}.

Lemma verify_from_ok i (pairs : list (option Z * list bool)) :
  Proposer.verify_from i pairs = Ok () <->
  forall k c n, pairs !! k = Some (Some c, n) -> c = Proposer.sum_not n.
Proof.
  revert i. induction pairs as [|[c0 n0] pairs IH]; intros i; simpl.
  - split; [|done]. intros _ k c n Hk. by rewrite lookup_nil in Hk.
  - destruct c0 as [c0|].
    + destruct (Z.eqb_spec c0 (Proposer.sum_not n0)) as [Heq|Hne]; simpl.
      * rewrite IH. split.
        -- intros Hrest [|k] c n Hk; simpl in Hk; [by simplify_eq|]. by eapply Hrest.
        -- intros Hall k c n Hk. by apply (Hall (S k)).
      * split; [done|]. intros Hall. destruct Hne. by apply (Hall 0%nat).
    + rewrite IH. split.
      * intros Hrest [|k] c n Hk; simpl in Hk; [by simplify_eq|]. by eapply Hrest.
      * intros Hall k c n Hk. by apply (Hall (S k)).
Qed.

Lemma verify_from_outcome i (pairs : list (option Z * list bool)) :
  Proposer.verify_from i pairs = Ok () \/
  exists k c n, pairs !! k = Some (Some c, n) /\ c <> Proposer.sum_not n /\
    Proposer.verify_from i pairs
    = Raise (AssertionError (Proposer.mismatch_msg (i + k) c (Proposer.sum_not n))).
Proof.
  revert i. induction pairs as [|[c0 n0] pairs IH]; intros i; simpl; [by left|].
  assert (Hshift : forall k c n, 
    pairs !! k = Some (Some c, n) /\ c <> Proposer.sum_not n /\
      Proposer.verify_from (S i) pairs
      = Raise (AssertionError (Proposer.mismatch_msg (S i + k) c (Proposer.sum_not n))) ->
    ((c0, n0) :: pairs) !! S k = Some (Some c, n) /\ c <> Proposer.sum_not n /\
      Proposer.verify_from (S i) pairs
      = Raise (AssertionError (Proposer.mismatch_msg (i + S k) c (Proposer.sum_not n)))).
  { intros k c n (Hk & Hne & Heq). replace (i + S k)%nat with (S i + k)%nat by lia. done. }
  destruct c0 as [c0|].
  - destruct (Z.eqb_spec c0 (Proposer.sum_not n0)) as [Heq|Hne]; simpl.
    + destruct (IH (S i)) as [Hok|(k & c & n & Hk)]; [by left|].
      right. exists (S k), c, n. by apply Hshift.
    + right. exists 0%nat, c0, n0. rewrite Nat.add_0_r. done.
  - destruct (IH (S i)) as [Hok|(k & c & n & Hk)]; [by left|].
    right. exists (S k), c, n. by apply Hshift.
Qed.

(** C1.  [verify_state] succeeds exactly when every slot whose content is
    set has that content equal to the number of false entries of the
    layer's null mask; slots whose content is [None] are not looked at.
    When it does not succeed it raises the assertion error of the first
    mismatching layer. *)
Theorem verify_state_spec (template : ModelTemplate.t) (state : State Params) :
  (Proposer.verify_state template state = Ok () <->
   forall i c n,
     ModelTemplate.contents template !! i = Some (Some c) ->
     nulls state !! i = Some n ->
     c = Proposer.sum_not n)
  /\ (Proposer.verify_state template state = Ok () \/
      exists i c n,
        ModelTemplate.contents template !! i = Some (Some c)
        /\ nulls state !! i = Some n
        /\ c <> Proposer.sum_not n
        /\ Proposer.verify_state template state
           = Raise (AssertionError (Proposer.mismatch_msg i c (Proposer.sum_not n)))).
Proof.
  unfold Proposer.verify_state. split.
  - rewrite verify_from_ok. split.
    + intros Hall i c n Hc Hn. apply (Hall i). unfold zip.
      apply lookup_zip_with_Some. eauto.
    + intros Hall k c n Hk. unfold zip in Hk.
      apply lookup_zip_with_Some in Hk as (x & y & Heq & Hx & Hy).
      simplify_eq. by eapply Hall.
  - destruct (verify_from_outcome 0
                (zip (ModelTemplate.contents template) (nulls state)))
      as [Hok|(k & c & n & Hk & Hne & Hraise)]; [by left|].
    right. exists k, c, n. unfold zip in Hk.
    apply lookup_zip_with_Some in Hk as (x & y & Heq & Hx & Hy).
    simplify_eq. done.
Qed.

End ProposerFacts.

(** On the two-layer state, contents [2, 2] pass; contents [3, 2] fail at
    layer 0, whose null mask has two false entries; a disabled slot passes
    whatever its mask. *)
Example verify_state_examples :
  Proposer.verify_state Toy.template0 Toy.state0 = Ok ()
  /\ Proposer.verify_state (ModelTemplate.Build [4; 2]%Z [Some 3; Some 2]%Z false) Toy.state0
     = Raise (AssertionError
                "content-null mismatch at layer 0 with content 3 and sum(~null) 2")
  /\ Proposer.verify_state (ModelTemplate.Build [4; 2]%Z [None; Some 2]%Z false) Toy.state0
     = Ok ().
Proof. repeat split; reflexivity. Qed.

Section EmbedFacts.
Context {Params Feature : Type} `{!Nets Params Feature}.

Lemma any_false (null : list bool) :
  Proposer.any null = false <-> forall b, b ∈ null -> b = false.
Proof.
  unfold Proposer.any. induction null as [|b0 null IH]; simpl.
  - split; [|done]. intros _ b Hb. by apply elem_of_nil in Hb.
  - destruct b0; simpl.
    + split; [done|]. intros Hall. apply (Hall true). by left.
    + rewrite IH. split.
      * intros Hall b Hb. apply elem_of_cons in Hb as [->|Hb]; [done|by apply Hall].
      * intros Hall b Hb. apply Hall. by right.
Qed.

Lemma any_true_lookup (null : list bool) idx :
  null !! idx = Some true -> Proposer.any null = true.
Proof.
  intros Hidx. destruct (Proposer.any null) eqn:Hany; [done|].
  rewrite any_false in Hany. symmetry. apply Hany.
  by eapply list_elem_of_lookup_2.
Qed.

Lemma argmax_first (null : list bool) idx :
  null !! idx = Some true ->
  (forall j, (j < idx)%nat -> null !! j = Some false) ->
  Proposer.argmax null = idx.
Proof.
  revert idx. induction null as [|b0 null IH]; intros idx Hidx Hbefore; [done|].
  destruct idx as [|idx]; simpl in Hidx.
  - by simplify_eq.
  - pose proof (Hbefore 0%nat ltac:(lia)) as H0. simpl in H0. simplify_eq. simpl.
    change (existsb id null) with (Proposer.any null).
    rewrite (any_true_lookup null idx Hidx). f_equal. apply IH; [done|].
    intros j Hj. apply (Hbefore (S j)). lia.
Qed.

Lemma layer_name_inj i j : Proposer.layer_name i = Proposer.layer_name j -> i = j.
Proof.
  unfold Proposer.layer_name. intros Heq. simpl in Heq.
  apply (inj pretty). by simplify_eq.
Qed.

(** C7.  [embed_feature] fails with an assertion error when the layer is
    dormant, and when its null mask has no true entry.  Otherwise the one
    slot index it hands to the layer's [insert_feature] is the index of the
    first true entry of the null mask, and the variables returned for that
    slot replace the layer's entry of the parameter tree: no other layer's
    entry and no other collection of the state is written. *)
Theorem embed_feature_spec (state : State Params) (feature : Feature) (layer_index : Z) :
  let null := layer_null state layer_index in
  (layer_dormant state layer_index = true ->
     Proposer.embed_feature state feature layer_index = Raise (AssertionError no_message))
  /\ (layer_dormant state layer_index = false ->
      (forall b, b ∈ null -> b = false) ->
      Proposer.embed_feature state feature layer_index = Raise (AssertionError no_message))
  /\ (forall idx,
        layer_dormant state layer_index = false ->
        null !! idx = Some true ->
        (forall j, (j < idx)%nat -> null !! j = Some false) ->
        (forall inserted params,
           layer_insert_feature state layer_index feature idx !! "params" = Some inserted ->
           state !! "params" = Some params ->
           Proposer.embed_feature state feature layer_index
           = Ok (<["params" := <[Proposer.layer_name layer_index := inserted]> params]> state))
        /\ (forall state',
              Proposer.embed_feature state feature layer_index = Ok state' ->
              (exists inserted params params',
                 layer_insert_feature state layer_index feature idx !! "params" = Some inserted
                 /\ state !! "params" = Some params
                 /\ state' !! "params" = Some params'
                 /\ params' !! Proposer.layer_name layer_index = Some inserted
                 /\ forall other, other <> layer_index ->
                      params' !! Proposer.layer_name other
                      = params !! Proposer.layer_name other)
              /\ forall collection, collection <> "params" ->
                   state' !! collection = state !! collection)).
Proof.
  intros null. unfold Proposer.embed_feature. split; [|split].
  - intros ->. done.
  - intros -> Hall. apply any_false in Hall. fold null. by rewrite Hall.
  - intros idx -> Hidx Hbefore. fold null.
    rewrite (any_true_lookup null idx Hidx), (argmax_first null idx Hidx Hbefore).
    simpl. split.
    + intros inserted params -> ->. done.
    + intros state' Hok.
      destruct (layer_insert_feature state layer_index feature idx !! "params")
        as [inserted|] eqn:Hins; [|done].
      destruct (state !! "params") as [params|] eqn:Hparams; [|done].
      simplify_eq. split.
      * exists inserted, params, (<[Proposer.layer_name layer_index := inserted]> params).
        split; [done|]. split; [done|]. split; [by rewrite lookup_insert_eq|].
        split; [by rewrite lookup_insert_eq|].
        intros other Hother. apply lookup_insert_ne.
        intros Heq. apply Hother. symmetry. by apply layer_name_inj.
      * intros collection Hne. by apply lookup_insert_ne.
Qed.

End EmbedFacts.

Lemma embed_feature_spec_witness :
  layer_dormant Toy.state0 0 = false
  /\ layer_null Toy.state0 0 !! 1%nat = Some true
  /\ Proposer.embed_feature Toy.state0 9%Z 0
     = Ok (<["params" := <["layers_0" := [Some 5; Some 9; Some 7; None]%Z]>
                          {[ "layers_0" := [Some 5; None; Some 7; None]%Z;
                             "layers_1" := [Some 1; Some 1]%Z ]}]> Toy.state0).
Proof.
  split; [reflexivity|]. split; [reflexivity|].
  destruct (embed_feature_spec Toy.state0 9%Z 0) as (_ & _ & Hembed).
  refine (proj1 (Hembed 1%nat eq_refl eq_refl _) _ _ eq_refl eq_refl).
  intros [|j] Hj; [reflexivity|lia].
Defined.

(** ** Batch sampler *)

Lemma mapM_res_Forall2 {A B} (f : A -> res B) (P : A -> B -> Prop) (l : list A) :
  (forall x, x ∈ l -> exists y, f x = Ok y /\ P x y) ->
  exists ys, mapM f l = Ok ys /\ Forall2 P l ys.
Proof.
  induction l as [|x l IH]; intros Hall.
  - exists []. split; [done|constructor].
  - destruct (Hall x) as (y & Hy & HP); [by left|].
    destruct IH as (ys & Hys & HF).
    { intros x' Hx'. apply Hall. by right. }
    exists (y :: ys). split; [|by constructor].
    simpl. rewrite Hy. simpl. rewrite Hys. done.
Qed.

Lemma take_row_in_range {A} (arr : list A) (i : Z) :
  (0 <= i < Z.of_nat (length arr))%Z ->
  Jnp.take_row arr i = arr !! Z.to_nat i.
Proof.
  intros Hi. unfold Jnp.take_row.
  rewrite (proj2 (Z.ltb_ge i 0)) by lia. f_equal. lia.
Qed.

Lemma gather_in_range {A} (arr : list A) (indices : list Z) :
  (forall i, i ∈ indices -> (0 <= i < Z.of_nat (length arr))%Z) ->
  exists rows, Jnp.gather arr indices = Ok rows
    /\ Forall2 (fun i x => arr !! Z.to_nat i = Some x) indices rows.
Proof.
  intros Hrange. unfold Jnp.gather.
  assert (Hrows : exists rows,
            mapM (Jnp.take_row arr) indices = Some rows
            /\ Forall2 (fun i x => arr !! Z.to_nat i = Some x) indices rows).
  { induction indices as [|i indices IH]; [by exists []|].
    destruct IH as (rows & Hm & Hrows). { intros i' Hi'. apply Hrange. by right. }
    assert (Hi : (0 <= i < Z.of_nat (length arr))%Z) by (apply Hrange; by left).
    destruct (lookup_lt_is_Some_2 arr (Z.to_nat i)) as [x Hx]; [lia|].
    exists (x :: rows). split; [|by constructor].
    simpl. rewrite (take_row_in_range arr i Hi), Hx. simpl. by rewrite Hm. }
  destruct Hrows as (rows & -> & Hrows). by exists rows.
Qed.

Lemma window_within {A} (p : list A) (b k m : nat) :
  (k * b + b <= m)%nat -> take b (drop (k * b) p) ⊆ take m p.
Proof.
  intros Hle x Hx. rewrite take_drop_commute in Hx.
  apply list_elem_of_lookup in Hx as [i Hi].
  rewrite lookup_drop in Hi. apply lookup_take_Some in Hi as [Hi Hlt].
  apply list_elem_of_lookup. exists (k * b + i)%nat.
  rewrite lookup_take_lt by lia. done.
Qed.

Lemma take_drop_disjoint {A} (p : list A) (m : nat) (x : A) :
  NoDup p -> x ∈ take m p -> x ∈ drop m p -> False.
Proof.
  intros Hnd Ht Hd. rewrite <- (take_drop m p) in Hnd.
  apply NoDup_app in Hnd as (_ & Hdisj & _). by eapply Hdisj.
Qed.

Section SamplerFacts.
Context {Key A B : Type}.
Variable permutation : Key -> Z -> list Z.

(** [jax.random.permutation(key, n)] returns a permutation of [range(n)]. *)
Hypothesis permutation_spec : forall key n, permutation key n ≡ₚ seqZ 0 n.

(** C10.  With a batch size [bs] (a positive integer; the labels run
    parallel to the dataset), [batches] yields [len(dataset) // bs]
    batches, the number [num_batches] returns.  There is one permutation
    [pindices] of the dataset's index range such that batch [k] holds the
    examples and labels at the [bs] indices found at positions
    [k*bs .. k*bs + bs - 1] of [pindices]; the index sets of two different
    batches are disjoint, and the trailing [len(dataset) mod bs] indices of
    [pindices] belong to no batch.  Without a batch size, [batches] yields
    the whole dataset once, draws no key, and [num_batches] returns 1. *)
Theorem sampler_batches_spec (self : Sampler.t Key A B) :
  match Sampler.batch_size self with
  | None =>
      Sampler.batches permutation self
      = Ok ([(Sampler.dataset self, Sampler.labels self)], Sampler.key_iter self)
      /\ Sampler.num_batches self = Ok 1%Z
  | Some bs =>
      (0 < bs)%Z ->
      length (Sampler.labels self) = length (Sampler.dataset self) ->
      let DLEN := Z.of_nat (length (Sampler.dataset self)) in
      let b := Z.to_nat bs in
      exists pindices yielded key_iter',
        pindices ≡ₚ seqZ 0 DLEN
        /\ Sampler.batches permutation self = Ok (yielded, key_iter')
        /\ Sampler.num_batches self = Ok (DLEN `div` bs)%Z
        /\ Z.of_nat (length yielded) = (DLEN `div` bs)%Z
        /\ (forall k bdataset blabels,
              yielded !! k = Some (bdataset, blabels) ->
              let window := take b (drop (k * b) pindices) in
              length window = b
              /\ length bdataset = b
              /\ length blabels = b
              /\ Forall2 (fun i x => Sampler.dataset self !! Z.to_nat i = Some x)
                   window bdataset
              /\ Forall2 (fun i y => Sampler.labels self !! Z.to_nat i = Some y)
                   window blabels)
        /\ (forall k k' i, k <> k' ->
              i ∈ take b (drop (k * b) pindices) ->
              i ∈ take b (drop (k' * b) pindices) -> False)
        /\ Z.of_nat (length (drop (length yielded * b) pindices)) = (DLEN `mod` bs)%Z
        /\ (forall k i, (k < length yielded)%nat ->
              i ∈ drop (length yielded * b) pindices ->
              i ∈ take b (drop (k * b) pindices) -> False)
  end.
Proof.
  destruct (Sampler.batch_size self) as [bs|] eqn:Hbs.
  2:{ unfold Sampler.batches, Sampler.num_batches. by rewrite Hbs. }
  intros Hpos Hlabels DLEN b.
  set (key := KeyIter.keys (Sampler.key_iter self) (KeyIter.drawn (Sampler.key_iter self))).
  set (pindices := permutation key DLEN).
  assert (Hperm : pindices ≡ₚ seqZ 0 DLEN) by apply permutation_spec.
  assert (Hplen : length pindices = length (Sampler.dataset self)).
  { rewrite Hperm, length_seqZ. lia. }
  assert (Hnd : NoDup pindices).
  { rewrite Hperm. apply NoDup_seqZ. }
  assert (Hrange : forall i, i ∈ pindices -> (0 <= i < DLEN)%Z).
  { intros i Hi. rewrite Hperm in Hi. apply elem_of_seqZ in Hi. lia. }
  set (nb := (DLEN `div` bs)%Z).
  assert (Hnb0 : (0 <= nb)%Z) by (apply Z.div_pos; lia).
  assert (Hnb : (nb * bs <= DLEN)%Z).
  { unfold nb. rewrite Z.mul_comm. apply Z.mul_div_le. lia. }
  assert (Hbindices : forall k, (k < Z.to_nat nb)%nat ->
            Sampler.bindices pindices bs (Z.of_nat k) = take b (drop (k * b) pindices)
            /\ length (take b (drop (k * b) pindices)) = b).
  { intros k Hk. unfold Sampler.bindices, Py.slice_to, Py.slice_from.
    rewrite (proj2 (Z.leb_le 0 (Z.of_nat k * bs))) by nia.
    rewrite (proj2 (Z.leb_le 0 bs)) by lia.
    replace (Z.to_nat (Z.of_nat k * bs)) with (k * b)%nat by nia.
    split; [done|]. rewrite length_take, length_drop. nia. }
  set (P := fun (batch_num : Z) (batch : list A * list B) =>
         let window := take b (drop (Z.to_nat batch_num * b) pindices) in
         Forall2 (fun i x => Sampler.dataset self !! Z.to_nat i = Some x) window batch.1
         /\ Forall2 (fun i y => Sampler.labels self !! Z.to_nat i = Some y) window batch.2).
  destruct (mapM_res_Forall2
              (fun batch_num =>
                 let bindices := Sampler.bindices pindices bs batch_num in
                 bdataset ← Jnp.gather (Sampler.dataset self) bindices;
                 blabels ← Jnp.gather (Sampler.labels self) bindices;
                 Ok (bdataset, blabels))
              P (Py.range nb)) as (yielded & Hyielded & HF).
  { intros batch_num Hin. apply elem_of_seqZ in Hin.
    destruct (Hbindices (Z.to_nat batch_num) ltac:(lia)) as [Hwin Hwlen].
    rewrite Z2Nat.id in Hwin by lia. cbv zeta. rewrite Hwin.
    assert (Hsub : forall i, i ∈ take b (drop (Z.to_nat batch_num * b) pindices) ->
                     i ∈ pindices).
    { intros i Hi. eapply subseteq_drop, subseteq_take, Hi. }
    destruct (gather_in_range (Sampler.dataset self)
                (take b (drop (Z.to_nat batch_num * b) pindices)))
      as (bd & -> & Hbd).
    { intros i Hi. apply Hrange. by apply Hsub. }
    destruct (gather_in_range (Sampler.labels self)
                (take b (drop (Z.to_nat batch_num * b) pindices)))
      as (bl & -> & Hbl).
    { intros i Hi. rewrite Hlabels. apply Hrange. by apply Hsub. }
    exists (bd, bl). done. }
  assert (Hylen : length yielded = Z.to_nat nb).
  { apply Forall2_length in HF. unfold Py.range in HF.
    rewrite length_seqZ in HF. lia. }
  exists pindices, yielded,
    (KeyIter.Build (KeyIter.keys (Sampler.key_iter self))
       (S (KeyIter.drawn (Sampler.key_iter self)))).
  split; [done|]. split.
  { unfold Sampler.batches. rewrite Hbs. simpl. unfold Sampler.floordiv.
    rewrite (proj2 (Z.eqb_neq bs 0)) by lia. simpl.
    fold DLEN key pindices nb. cbv zeta in Hyielded. rewrite Hyielded. done. }
  split.
  { unfold Sampler.num_batches, Sampler.floordiv. rewrite Hbs.
    by rewrite (proj2 (Z.eqb_neq bs 0)) by lia. }
  split; [lia|]. split.
  { intros k bdataset blabels Hk window.
    assert (Hklt : (k < Z.to_nat nb)%nat).
    { apply lookup_lt_Some in Hk. lia. }
    destruct (Forall2_lookup_r _ _ _ _ _ HF Hk) as (batch_num & Hnum & HPk).
    unfold Py.range in Hnum. apply lookup_seqZ in Hnum as [-> _].
    destruct HPk as [Hbd Hbl]. simpl in Hbd, Hbl.
    rewrite Z.add_0_l, Nat2Z.id in Hbd, Hbl.
    destruct (Hbindices k Hklt) as [_ Hwlen]. fold window in Hwlen, Hbd, Hbl.
    split; [done|].
    split; [by rewrite <- (Forall2_length _ _ _ Hbd)|].
    split; [by rewrite <- (Forall2_length _ _ _ Hbl)|]. done. }
  split.
  { assert (Hlt : forall k k' i, (k < k')%nat ->
              i ∈ take b (drop (k * b) pindices) ->
              i ∈ take b (drop (k' * b) pindices) -> False).
    { intros k k' i Hlt Hi Hi'.
      apply (take_drop_disjoint pindices (k' * b) i Hnd).
      - eapply window_within; [|exact Hi]. nia.
      - eapply subseteq_take, Hi'. }
    intros k k' i Hne Hi Hi'.
    destruct (Nat.lt_total k k') as [Hkk|[Hkk|Hkk]]; [|done|]; eauto. }
  split.
  { rewrite length_drop, Hylen, Hplen.
    pose proof (Z.div_mod DLEN bs ltac:(lia)) as Hdm. fold nb in Hdm.
    unfold DLEN in *. nia. }
  intros k i Hk Hi Hi'.
  apply (take_drop_disjoint pindices (length yielded * b) i Hnd); [|done].
  eapply window_within; [|exact Hi']. nia.
Qed.

End SamplerFacts.

Lemma sampler_batches_spec_witness :
  (forall key n, Synthetic.reversed key n ≡ₚ seqZ 0 n)
  /\ (0 < 2)%Z
  /\ length (Sampler.labels Synthetic.sampler5)
     = length (Sampler.dataset Synthetic.sampler5)
  /\ exists yielded key_iter',
       Sampler.batches Synthetic.reversed Synthetic.sampler5 = Ok (yielded, key_iter')
       /\ Z.of_nat (length yielded) = (5 `div` 2)%Z.
Proof.
  assert (Hrev : forall key n, Synthetic.reversed key n ≡ₚ seqZ 0 n).
  { intros key n. unfold Synthetic.reversed. apply reverse_Permutation. }
  split; [exact Hrev|]. split; [lia|]. split; [reflexivity|].
  pose proof (sampler_batches_spec Synthetic.reversed Hrev Synthetic.sampler5) as Hspec.
  change (Sampler.batch_size Synthetic.sampler5) with (Some 2%Z) in Hspec.
  destruct (Hspec ltac:(lia) eq_refl)
    as (pindices & yielded & key_iter' & _ & Hbatches & _ & Hlen & _).
  exists yielded, key_iter'. split; [exact Hbatches|exact Hlen].
Defined.

(** The sampler on five examples with batch size two: two batches in the
    order of the permutation, and the example at its last position, here
    the first example, is left out. *)
Example sampler5_batches :
  fst <$> Sampler.batches Synthetic.reversed Synthetic.sampler5
  = Ok [([14; 13]%Z, [true; false]); ([12; 11]%Z, [true; false])].
Proof. reflexivity. Qed.

(** A batch size that is not positive is outside the statement: with a
    negative one [num_batches] is negative and nothing is yielded, and with
    zero both calls raise. *)
Remark sampler_nonpositive_batch_size :
  let sampler bs :=
    Sampler.Build (KeyIter.Build (fun n : nat => n) 0)
      [10; 11; 12; 13; 14]%Z [true; false; true; false; true] (Some bs) in
  Sampler.num_batches (sampler (-2)%Z) = Ok (-3)%Z
  /\ fst <$> Sampler.batches Synthetic.reversed (sampler (-2)%Z) = Ok []
  /\ Sampler.num_batches (sampler 0%Z) = Raise ZeroDivisionError
  /\ Sampler.batches Synthetic.reversed (sampler 0%Z) = Raise ZeroDivisionError.
Proof. repeat split; reflexivity. Qed.

(** ** Floating-point comparisons on finite values *)

Module FlFacts.







End FlFacts.

(** ** Feature optimizer, MALA variant: the step-size controller *)


Section MalaFacts.
Context {Feat Key : Type}.
Variable kfac_mala_burst : Feat -> Key -> fl -> fl * Feat * fl.



End MalaFacts.


(** A synthetic acceptance sequence 0.95, 0.5, 0.1 from step size 1: the
    step size grows, holds, and shrinks back. *)
Example mala_synthetic_sequence :
  let run keys :=
    (Lax.scan (Mala.burst_fun Synthetic.burst) (Mala.init_state (Fin 1) tt) keys).1 in
  Mala.lr (run [0.95%Q]) = Fl.mul (Fin 1) (Fin 1.3)
  /\ Mala.lr (run [0.95%Q; 0.5%Q]) = Fl.mul (Fin 1) (Fin 1.3)
  /\ Mala.lr (run [0.95%Q; 0.5%Q; 0.1%Q])
     = Fl.div (Fl.mul (Fin 1) (Fin 1.3)) (Fin 1.3)
  /\ (Lax.scan (Mala.burst_fun Synthetic.burst) (Mala.init_state (Fin 1) tt)
        [0.95%Q; 0.5%Q; 0.1%Q]).2 = [Fin 0.95; Fin 0.5; Fin 0.1].
Proof. repeat split; reflexivity. Qed.

(** ** Feature optimizer, deterministic variant: the step size *)

Section SgdFacts.
Context {Feat : Type}.
Variable kfac_single_sgd : Feat -> fl -> fl * Feat.

(** Whatever step size the state carries, the next one is the initial
    step size or a third of it. *)
Lemma body_fun_eps (eps0 : fl) (i : Z) (state : Sgd.State Feat) :
  Sgd.eps (Sgd.body_fun kfac_single_sgd eps0 i state) = eps0
  \/ Sgd.eps (Sgd.body_fun kfac_single_sgd eps0 i state) = Fl.div eps0 (Fin 3).
Proof.
  unfold Sgd.body_fun.
  destruct (kfac_single_sgd (Sgd.feature state) (Sgd.eps state)) as [new_rscore new_feature].
  cbn [Sgd.eps]. unfold Fl.where_.
  destruct (Fl.gtb (Fl.div new_rscore (Sgd.rscore state)) (Fin 1)); [by left|by right].
Qed.

End SgdFacts.

(** C5, on the code: a run of [kfac_direct_sgd] from step size 0.9 whose
    r-scores are 1, 1/2, 3/4.  The second step does not increase the
    r-score and leaves the step size at 0.9 / 3.  The third step increases
    the r-score, and the step size it leaves is 0.9 again: it is not the
    current step size 0.3, and it is larger. *)
Theorem kfac_direct_sgd_step_size_rises :
  let run steps :=
    Lax.fori_loop 0 steps (Sgd.body_fun Synthetic.step (Fin 0.9))
      (Sgd.init_state (Fin 0.9) 0%nat) in
  (forall layer_score loss_sqnorm steps,
     Sgd.kfac_direct_sgd Synthetic.step layer_score loss_sqnorm 0%nat (Fin 0.9) steps
     = (Sgd.rscore (run steps), Sgd.feature (run steps), layer_score, loss_sqnorm))
  /\ Sgd.rscore (run 2%Z) = Fin (1 # 2)
  /\ Sgd.eps (run 2%Z) = Fl.div (Fin 0.9) (Fin 3)
  /\ Sgd.rscore (run 3%Z) = Fin (3 # 4)
  /\ Sgd.eps (run 3%Z) = Fin 0.9
  /\ Fl.ltb (Sgd.eps (run 2%Z)) (Sgd.eps (run 3%Z)) = true.
Proof. repeat split; reflexivity. Qed.

(** The sibling update in the proposal loops keeps or shrinks the step
    size the state carries: for a positive step size it never grows. *)
Lemma step_eps_keeps_or_shrinks (rmetric prev_rmetric : fl) (eps : Q) :
  (0 < eps)%Q ->
  exists eps', Growth.step_eps rmetric prev_rmetric (Fin eps) = Fin eps'
    /\ (eps' <= eps)%Q.
Proof.
  intros Heps. unfold Growth.step_eps, Fl.where_.
  destruct (Fl.gtb rmetric prev_rmetric).
  - exists eps. split; [done|lra].
  - exists (eps / 3)%Q. split; [done|].
    apply Qle_shift_div_r; lra.
Qed.

(** ** Restoring a checkpoint *)

(** The restore branch never reaches its [exit()]. *)
Lemma restore_never_exits {Params}
    (restore_checkpoint : Checkpoint.TrainState Params -> Checkpoint.TrainState Params)
    (enable restore : bool) (initial_contents : list (option Z))
    (solver_state0 : State Params) :
  Checkpoint.restore_at_startup restore_checkpoint enable restore
    initial_contents solver_state0 <> Raise SystemExit.
Proof.
  unfold Checkpoint.restore_at_startup.
  destruct (enable && restore); [|done].
  destruct (Py.getitem (Checkpoint.contents _) (-1)) as [lhs|e] eqn:Hlast; simpl.
  - unfold Checkpoint.differs. rewrite bool_decide_eq_false_2; [done|]. by intros [].
  - intros Heq. injection Heq as ->.
    unfold Py.getitem, Py.position in Hlast.
    repeat (case_match; simplify_eq/=).
Qed.


(** ** Locating a feature *)

Module LocateFacts.




End LocateFacts.





(** ** Growth: commits and their sanity checks *)

Lemma in_out_indices_defined (self : ModelTemplate.t) (layer_index : Z) :
  (0 <= layer_index)%Z ->
  (exists j, (layer_index < j)%Z /\ enabled_at self j) ->
  exists io, ModelTemplate.in_out_indices self layer_index = Ok io.
Proof.
  intros Hli (j & Hj & _ & w & Hw).
  unfold ModelTemplate.in_out_indices, ModelTemplate.nonzero. cbv zeta.
  destruct (head (ModelTemplate.positions_from ModelTemplate.is_set 0
                    (Py.slice_from (ModelTemplate.contents self) (layer_index + 1))))
    as [s|] eqn:Hhd; [by eexists|].
  exfalso. apply head_None in Hhd.
  unfold Py.slice_from in Hhd. rewrite (proj2 (Z.leb_le _ _)) in Hhd by lia.
  pose proof (TemplateFacts.positions_nil_inv _ _ _ Hhd
                (Z.to_nat j - Z.to_nat (layer_index + 1))%nat (Some w)) as Hnone.
  rewrite lookup_drop in Hnone.
  replace (Z.to_nat (layer_index + 1) + (Z.to_nat j - Z.to_nat (layer_index + 1)))%nat
    with (Z.to_nat j) in Hnone by lia.
  by specialize (Hnone Hw).
Qed.



Lemma position_lookup {A} (l : list A) (i : Z) (p : nat) :
  Py.position (length l) i = Ok p -> (p < length l)%nat.
Proof.
  unfold Py.position. intros Hp.
  repeat (case_match; simplify_eq/=); lia.
Qed.

Lemma getitem_position {A} (l : list A) (i : Z) (p : nat) (x : A) :
  Py.position (length l) i = Ok p -> l !! p = Some x -> Py.getitem l i = Ok x.
Proof. intros Hp Hx. unfold Py.getitem. rewrite Hp. simpl. by rewrite Hx. Qed.

Lemma setitem_position {A} (l : list A) (i : Z) (p : nat) (x : A) :
  Py.position (length l) i = Ok p -> Py.setitem l i x = Ok (<[p := x]> l).
Proof. intros Hp. unfold Py.setitem. by rewrite Hp. Qed.

Section GrowthFacts.
Context {Params Feature : Type} `{!Nets Params Feature}.
Variable batch_loss : State Params -> fl.





End GrowthFacts.


(** Installing a state whose loss is 5/3 of the previous one fails both
    checks, and the failed width check leaves the new state and the
    incremented content in the store; a depth commit that keeps the loss
    passes. *)
Example sanity_check_examples :
  Growth.WidthModification_apply Scenario.loss
    (Growth.BuildWidth (Fin 3) 0 Scenario.emptied) (Scenario.world 0)
  = (Raise (AssertionError "adding width made loss worse"),
     Growth.BuildWorld Scenario.emptied
       (ModelTemplate.Build [4; 2]%Z [Some 3; Some 2]%Z false) 0%Z false)
  /\ (Growth.DepthModification_apply Scenario.loss
        (Growth.BuildDepth (Fin 3) 1 Scenario.emptied) Scenario.world_dormant).1
     = Raise (AssertionError "adding layer made loss worse")
  /\ Growth.DepthModification_apply Scenario.loss
       (Growth.BuildDepth (Fin 3) 1 Toy.state0) Scenario.world_dormant
     = (Ok (),
        Growth.BuildWorld Toy.state0
          (ModelTemplate.Build [4; 4; 2]%Z [Some 2; Some 2; Some 2]%Z false) 0%Z false).
Proof. repeat split; reflexivity. Qed.

(** At a zero previous loss the quotient of the losses is infinite or not a
    number.  With both losses zero the width check fails, since [nan] is
    not below 1.001, and the depth check passes, since [nan] is not at
    least 1.2. *)
Remark sanity_check_at_zero_loss :
  (Growth.WidthModification_apply (fun _ => Fin 0)
     (Growth.BuildWidth (Fin 3) 0 Scenario.grown) (Scenario.world 0)).1
  = Raise (AssertionError "adding width made loss worse")
  /\ (Growth.DepthModification_apply (fun _ => Fin 0)
        (Growth.BuildDepth (Fin 3) 1 Toy.state0) Scenario.world_dormant).1
     = Ok ().
Proof. split; reflexivity. Qed.

Section GateFacts.
Context {Params Feature : Type} `{!Nets Params Feature}.
Variable propose_width : State Params -> Z -> Z -> Growth.Selection Feature.
Variable propose_layer : State Params -> Z -> Z -> Z -> Growth.Selection Feature.
Variable cfg : Growth.Config.

(** C2, as the code has it.  At a site that has a following enabled slot:

    [consider_adding_width] evaluates the gate "best local ratio
    [best_raw / layer_score] exceeds [thresh] and [best_raw / loss_sqnorm]
    exceeds [abs_thresh]".  At layer 0, when the gate holds or a feature
    was just added or the epoch is final, it first writes a landscape file,
    and the process exits if that is the 25th.  Otherwise it returns [None]
    when the gate fails and, when the gate holds, the [WidthModification]
    that carries the state [embed_feature] returns for the selected
    feature; an error of [embed_feature] propagates.

    [consider_inserting_layer], at a dormant site, evaluates the gate
    "[adjusted_metric / vlayer_score] exceeds [thresh] and
    [adjusted_metric / loss_sqnorm] exceeds [layer_abs_thresh]", where
    [adjusted_metric] is [best_raw] divided by the cost multiplier (times
    the new layer's size under size costing).  It returns [None] when the
    gate fails and, when it holds, the [DepthModification] that carries the
    state [embed_layer] returns; an error of [embed_layer] propagates. *)
Theorem growth_gates (w : Growth.World Params) (is_final : bool)
    (layer_index in_index out_index : Z) :
  ModelTemplate.in_out_indices (Growth.template w) layer_index
    = Ok (in_index, out_index) ->
  (let sel := propose_width (Growth.solver_state w) layer_index in_index in
   let gate :=
     Fl.gtb (Fl.div (Growth.best_raw sel) (Growth.layer_score sel)) (Growth.thresh cfg)
     && Fl.gtb (Fl.div (Growth.best_raw sel) (Growth.loss_sqnorm sel))
          (Growth.abs_thresh cfg) in
   let exits :=
     (gate || Growth.just_added w || is_final) && (layer_index =? 0)%Z
     && (25 <=? Growth.save_index w + 1)%Z in
   let best_ratio :=
     Fl.add (Fin 1) (Fl.div (Growth.best_raw sel) (Growth.baseline sel)) in
   let result :=
     (Growth.consider_adding_width propose_width cfg is_final layer_index w).1 in
   (exits = true -> result = Raise SystemExit)
   /\ (exits = false -> gate = false -> result = Ok None)
   /\ (exits = false -> gate = true ->
       result
       = (fun new_state => Some (Growth.BuildWidth best_ratio layer_index new_state))
           <$> Proposer.embed_feature (Growth.solver_state w)
                 (Growth.best_feature sel) layer_index))
  /\ (Py.getitem (ModelTemplate.contents (Growth.template w)) layer_index = Ok None ->
      let new_layer_size :=
        Proposer.sum_not (Proposer.get_input_null (Growth.solver_state w) in_index) in
      let sel :=
        propose_layer (Growth.solver_state w) layer_index in_index new_layer_size in
      let cost_mul :=
        if Growth.size_costing cfg
        then Fl.mul (Growth.layer_cost_mul cfg) (Fl.of_Z new_layer_size)
        else Growth.layer_cost_mul cfg in
      let adjusted_metric := Fl.div (Growth.best_raw sel) cost_mul in
      let gate :=
        Fl.gtb (Fl.div adjusted_metric (Growth.vlayer_score sel)) (Growth.thresh cfg)
        && Fl.gtb (Fl.div adjusted_metric (Growth.loss_sqnorm sel))
             (Growth.layer_abs_thresh cfg) in
      let adjusted_ratio :=
        Fl.add (Fin 1) (Fl.div adjusted_metric (Growth.baseline sel)) in
      let result := (Growth.consider_inserting_layer propose_layer cfg layer_index w).1 in
      (gate = false -> result = Ok None)
      /\ (gate = true ->
          result
          = (fun new_state => Some (Growth.BuildDepth adjusted_ratio layer_index new_state))
              <$> Proposer.embed_layer (Growth.template w) (Growth.solver_state w)
                    (make_invertible (Growth.best_feature sel)) layer_index)).
Proof.
  intros Hio. split.
  - intros sel gate exits best_ratio result.
    assert (Hgate : Growth.going_to_add cfg sel = gate) by done.
    unfold result, Growth.consider_adding_width.
    unfold mbind, Growth.run_bind, Growth.get, Growth.lift, mret, Growth.run_ret,
      Growth.exit, Growth.set_just_added, Growth.set_save_index.
    rewrite Hio. cbn [fst snd Growth.solver_state Growth.template
                      Growth.save_index Growth.just_added].
    fold sel. rewrite Hgate. fold best_ratio. unfold exits.
    destruct ((gate || Growth.just_added w || is_final) && (layer_index =? 0)%Z);
      [destruct (25 <=? Growth.save_index w + 1)%Z|];
      cbn [andb fst]; (split; [|split]); try done;
      try (by intros _ ->);
      intros _ ->;
      by destruct (Proposer.embed_feature (Growth.solver_state w)
                     (Growth.best_feature sel) layer_index).
  - intros Hc new_layer_size sel cost_mul adjusted_metric gate adjusted_ratio result.
    assert (Hgate : Growth.going_to_insert cfg sel new_layer_size = gate) by done.
    unfold result, Growth.consider_inserting_layer.
    unfold mbind, Growth.run_bind, Growth.get, Growth.lift, mret, Growth.run_ret.
    rewrite Hc. cbn [py_assert ModelTemplate.is_set negb]. rewrite Hio.
    cbn [fst snd Growth.solver_state Growth.template]. fold new_layer_size sel.
    rewrite Hgate.
    change (Growth.adjusted_metric cfg sel new_layer_size) with adjusted_metric.
    fold adjusted_ratio.
    split; intros ->; [done|].
    by destruct (Proposer.embed_layer (Growth.template w) (Growth.solver_state w)
                   (make_invertible (Growth.best_feature sel)) layer_index).
Qed.

End GateFacts.

Lemma growth_gates_witness :
  ModelTemplate.in_out_indices (Growth.template (Scenario.world 3)) 0 = Ok (0%Z, 1%Z)
  /\ (Growth.consider_adding_width Scenario.propose_width Scenario.config
        false 0 (Scenario.world 3)).1
     = Ok (Some (Growth.BuildWidth (Fin 3) 0 Scenario.grown)).
Proof.
  split; [reflexivity|].
  destruct (growth_gates Scenario.propose_width Scenario.propose_layer Scenario.config
              (Scenario.world 3) false 0 0 1 eq_refl) as [(_ & _ & Hcommit) _].
  rewrite (Hcommit eq_refl eq_refl). vm_compute. reflexivity.
Defined.

(** C2, as stated, fails: at layer 0 with 24 landscape files written, the
    candidate passes both thresholds, and the call ends the process
    instead of returning a modification. *)
Lemma consider_adding_width_exits :
  Fl.gtb (Fl.div (Growth.best_raw Scenario.selection)
            (Growth.layer_score Scenario.selection))
    (Growth.thresh Scenario.config) = true
  /\ Fl.gtb (Fl.div (Growth.best_raw Scenario.selection)
               (Growth.loss_sqnorm Scenario.selection))
       (Growth.abs_thresh Scenario.config) = true
  /\ (Growth.consider_adding_width Scenario.propose_width Scenario.config
        false 0 (Scenario.world 24)).1 = Raise SystemExit.
Proof. repeat split; reflexivity. Qed.

(** The same candidate against thresholds it does not reach is declined at
    both kinds of site, and is accepted as a new layer at the dormant site
    under the scenario's thresholds. *)
Example growth_gates_examples :
  (Growth.consider_adding_width Scenario.propose_width Scenario.strict_config
     false 0 (Scenario.world 3)).1 = Ok None
  /\ (Growth.consider_inserting_layer Scenario.propose_layer Scenario.strict_config
        1 Scenario.world_dormant).1 = Ok None
  /\ (fun m : option (Growth.DepthModification (list (option Z))) =>
        Growth.depth_ratio <$> m)
       <$> (Growth.consider_inserting_layer Scenario.propose_layer Scenario.config
              1 Scenario.world_dormant).1
     = Ok (Some (Fin 3)).
Proof. repeat split; reflexivity. Qed.

(** * Further properties of the code *)

(** ** Architecture template: enabled and disabled layers *)

Module TemplateMore.
Import ModelTemplate.

Lemma elem_of_positions_from p i arr j :
  j ∈ positions_from p i arr <->
  exists k d, j = (i + k)%nat /\ arr !! k = Some d /\ p d = true.
Proof.
  revert i. induction arr as [|d0 arr IH]; intros i; simpl.
  - split; [by intros ?%elem_of_nil|]. by intros (k & d & _ & Hk & _).
  - assert (Hrest : j ∈ positions_from p (S i) arr <->
              exists k d, j = (i + S k)%nat /\ arr !! k = Some d /\ p d = true).
    { rewrite IH. split; intros (k & d & -> & Hk & Hd); exists k, d;
        (split; [lia|done]). }
    destruct (p d0) eqn:Hp.
    + rewrite elem_of_cons, Hrest. split.
      * intros [->|(k & d & -> & Hk & Hd)].
        -- exists 0%nat, d0. split; [lia|done].
        -- exists (S k), d. done.
      * intros ([|k] & d & -> & Hk & Hd); simpl in Hk.
        -- left. lia.
        -- right. by exists k, d.
    + rewrite Hrest. split.
      * intros (k & d & -> & Hk & Hd). by exists (S k), d.
      * intros ([|k] & d & -> & Hk & Hd); simpl in Hk; [congruence|].
        by exists k, d.
Qed.

Lemma positions_from_partition p i arr :
  positions_from p i arr ++ positions_from (fun d => negb (p d)) i arr
  ≡ₚ seq i (length arr).
Proof.
  revert i. induction arr as [|d0 arr IH]; intros i; simpl; [done|].
  destruct (p d0); simpl.
  - by rewrite IH.
  - by rewrite <- Permutation_middle, IH.
Qed.

End TemplateMore.

(** X1.  The enabled and the disabled layers of a template partition its
    slot positions: together they are a rearrangement of
    [0, ..., len(contents) - 1], a position is an enabled layer exactly
    when its content is set, and a disabled layer exactly when its content
    is [None]. *)
Theorem enabled_disabled_partition (self : ModelTemplate.t) :
  ModelTemplate.enabled_layers self ++ ModelTemplate.disabled_layers self
    ≡ₚ seq 0 (length (ModelTemplate.contents self))
  /\ (forall i, i ∈ ModelTemplate.enabled_layers self <->
        exists c, ModelTemplate.contents self !! i = Some (Some c))
  /\ (forall i, i ∈ ModelTemplate.disabled_layers self <->
        ModelTemplate.contents self !! i = Some None).
Proof.
  unfold ModelTemplate.enabled_layers, ModelTemplate.disabled_layers.
  split; [apply TemplateMore.positions_from_partition|]. split.
  - intros i. rewrite TemplateMore.elem_of_positions_from. split.
    + intros (k & [c|] & -> & Hk & Hd); [|done]. by exists c.
    + intros [c Hc]. by exists i, (Some c).
  - intros i. rewrite TemplateMore.elem_of_positions_from. split.
    + intros (k & [c|] & -> & Hk & Hd); [done|]. done.
    + intros Hc. by exists i, None.
Qed.

Lemma in_out_indices_neighbours (self : ModelTemplate.t)
    (layer_index in_index out_index : Z) :
  (0 <= layer_index)%Z ->
  ModelTemplate.in_out_indices self layer_index = Ok (in_index, out_index) ->
  (in_index = layer_index <->
     layer_index = 0%Z \/ enabled_at self (layer_index - 1))
  /\ (out_index = (layer_index + 1)%Z <-> enabled_at self (layer_index + 1)).
Proof.
  intros Hli. set (n := Z.to_nat layer_index).
  unfold ModelTemplate.in_out_indices, ModelTemplate.nonzero. cbv zeta.
  assert (Hfrom : Py.slice_from (ModelTemplate.contents self) (layer_index + 1)
                  = drop (S n) (ModelTemplate.contents self)).
  { unfold Py.slice_from. rewrite (proj2 (Z.leb_le _ _)) by lia. f_equal. lia. }
  rewrite Hfrom.
  destruct (head (ModelTemplate.positions_from ModelTemplate.is_set 0
                    (drop (S n) (ModelTemplate.contents self)))) as [s|] eqn:Hhd;
    [|done].
  apply TemplateFacts.positions_head in Hhd as (k & d & -> & Hk & Hd & Hbefore).
  rewrite lookup_drop in Hk. apply TemplateFacts.is_set_true in Hd as [w' ->].
  assert (Hlen : (S n < length (ModelTemplate.contents self))%nat).
  { apply lookup_lt_Some in Hk. lia. }
  assert (Hto : Py.slice_to (Py.slice_to (ModelTemplate.contents self) (layer_index + 1)) (-1)
                = take n (ModelTemplate.contents self)).
  { unfold Py.slice_to. rewrite (proj2 (Z.leb_le 0 (layer_index + 1))) by lia.
    simpl. rewrite take_take, length_take. f_equal. lia. }
  rewrite Hto. intros Heq. split.
  - assert (Hprev : enabled_at self (layer_index - 1) ->
              (0 < n)%nat /\ exists w,
                take n (ModelTemplate.contents self) !! pred n = Some (Some w)).
    { intros (Hnn & w & Hw). split; [lia|]. exists w.
      rewrite lookup_take_lt by lia. rewrite <- Hw. f_equal. lia. }
    destruct (last (ModelTemplate.positions_from ModelTemplate.is_set 0
                      (take n (ModelTemplate.contents self)))) as [p|] eqn:Hlast.
    + apply TemplateFacts.positions_last in Hlast as (k0 & d0 & -> & Hk0 & Hd0 & Hafter).
      apply TemplateFacts.is_set_true in Hd0 as [w0 ->].
      assert (Hk0n : (k0 < n)%nat).
      { apply lookup_lt_Some in Hk0. rewrite length_take in Hk0. lia. }
      rewrite lookup_take_lt in Hk0 by done.
      injection Heq as <- <-. split.
      * intros Hin. right. split; [lia|]. exists w0. rewrite <- Hk0. f_equal. lia.
      * intros [->|Hen]; [simpl in *; lia|].
        destruct (Hprev Hen) as (Hn & w & Hw).
        destruct (decide (k0 = pred n)) as [->|Hne]; [lia|].
        specialize (Hafter (pred n) (Some w) ltac:(lia) Hw). done.
    + apply last_None in Hlast. injection Heq as <- <-. split.
      * intros <-. by left.
      * intros [->|Hen]; [done|].
        destruct (Hprev Hen) as (Hn & w & Hw).
        by pose proof (TemplateFacts.positions_nil_inv _ _ _ Hlast _ _ Hw).
  - injection Heq as _ <-. split.
    + intros Hout. assert (k = 0)%nat as -> by lia.
      split; [lia|]. exists w'. rewrite <- Hk. f_equal. lia.
    + intros (_ & w & Hw). destruct k as [|k]; [lia|].
      specialize (Hbefore 0%nat (Some w) ltac:(lia)).
      rewrite lookup_drop in Hbefore.
      replace (S n + 0)%nat with (Z.to_nat (layer_index + 1)) in Hbefore by lia.
      by specialize (Hbefore Hw).
Qed.

(** X2.  When [in_out_indices] returns for a site [layer_index >= 0], the
    input boundary is the site itself exactly when the site is 0 or the
    slot just before it is enabled, and the output boundary is the next
    position exactly when the slot just after the site is enabled. *)
Theorem in_out_indices_adjacent (self : ModelTemplate.t)
    (layer_index in_index out_index : Z) :
  (0 <= layer_index)%Z ->
  ModelTemplate.in_out_indices self layer_index = Ok (in_index, out_index) ->
  (in_index = layer_index <->
     layer_index = 0%Z \/ enabled_at self (layer_index - 1))
  /\ (out_index = (layer_index + 1)%Z <-> enabled_at self (layer_index + 1)).
Proof. apply in_out_indices_neighbours. Qed.

Lemma in_out_indices_adjacent_witness :
  (0 <= 3)%Z
  /\ ModelTemplate.in_out_indices template_gap 3 = Ok (1%Z, 4%Z)
  /\ (1 <> 3)%Z
  /\ ~ enabled_at template_gap (3 - 1)
  /\ enabled_at template_gap (3 + 1).
Proof.
  assert (H0 : (0 <= 3)%Z) by lia.
  destruct (in_out_indices_adjacent template_gap 3 1 4 H0 eq_refl) as [Hin Hout].
  split; [exact H0|]. split; [reflexivity|]. split; [lia|]. split.
  - intros Hen. assert (1 = 3)%Z; [|lia]. apply Hin. by right.
  - apply Hout. reflexivity.
Defined.

(** ** Solver: the check on the template at construction *)

Module SolverFacts.

(** A list whose later entries never exceed earlier ones. *)
Lemma descending_cons (x : Z) (m : list Z) :
  (forall i j a b, (i < j)%nat -> (x :: m) !! i = Some a -> (x :: m) !! j = Some b ->
     (b <= a)%Z) <->
  (forall b, b ∈ m -> (b <= x)%Z)
  /\ (forall i j a b, (i < j)%nat -> m !! i = Some a -> m !! j = Some b -> (b <= a)%Z).
Proof.
  split.
  - intros Hall. split.
    + intros b Hb. apply list_elem_of_lookup in Hb as [j Hj].
      by apply (Hall 0%nat (S j) x b ltac:(lia)).
    + intros i j a b Hij Hi Hj. by apply (Hall (S i) (S j) a b ltac:(lia)).
  - intros [Hhead Htail] [|i] [|j] a b Hij Hi Hj; simpl in *; try lia.
    + simplify_eq. apply Hhead. by eapply list_elem_of_lookup_2.
    + by apply (Htail i j a b ltac:(lia)).
Qed.

Lemma nonincreasing_descending (seq : list Z) :
  Solver.nonincreasing seq = true <->
  forall i j a b, (i < j)%nat -> seq !! i = Some a -> seq !! j = Some b -> (b <= a)%Z.
Proof.
  induction seq as [|x seq IH].
  - split; [|done]. intros _ i j a b _ Hi. by rewrite lookup_nil in Hi.
  - rewrite descending_cons. destruct seq as [|y seq].
    + split; [|done]. intros _. split.
      * by intros b ?%elem_of_nil.
      * intros i j a b _ Hi. by rewrite lookup_nil in Hi.
    + change (Solver.nonincreasing (x :: y :: seq))
        with ((y <=? x)%Z && Solver.nonincreasing (y :: seq)).
      rewrite andb_true_iff, Z.leb_le, IH. split.
      * intros [Hyx Hrest]. split; [|done].
        intros b Hb. apply elem_of_cons in Hb as [->|Hb]; [done|].
        apply descending_cons in Hrest as [Hhead _].
        etrans; [|exact Hyx]. by apply Hhead.
      * intros [Hhead Hrest]. split; [|done]. apply Hhead. by left.
Qed.

Lemma set_contents_descending (contents : list (option Z)) :
  (forall i j a b, (i < j)%nat ->
     Solver.set_contents contents !! i = Some a ->
     Solver.set_contents contents !! j = Some b -> (b <= a)%Z) <->
  (forall i j a b, (i < j)%nat ->
     contents !! i = Some (Some a) -> contents !! j = Some (Some b) -> (b <= a)%Z).
Proof.
  unfold Solver.set_contents.
  induction contents as [|d contents IH]; simpl.
  - split; intros _ i j a b _ Hi; by rewrite lookup_nil in Hi.
  - destruct d as [x|]; simpl.
    + rewrite descending_cons, IH. split.
      * intros [Hhead Htail] [|i] [|j] a b Hij Hi Hj; simpl in *; try lia.
        -- simplify_eq. apply Hhead. apply list_elem_of_omap.
           exists (Some b). split; [|done]. by eapply list_elem_of_lookup_2.
        -- by apply (Htail i j a b ltac:(lia)).
      * intros Hall. split.
        -- intros b Hb. apply list_elem_of_omap in Hb as (d & Hd & Heq).
           simpl in Heq. subst d. apply list_elem_of_lookup in Hd as [j Hj].
           by apply (Hall 0%nat (S j) x b ltac:(lia)).
        -- intros i j a b Hij Hi Hj. by apply (Hall (S i) (S j) a b ltac:(lia)).
    + rewrite IH. split.
      * intros Hall [|i] [|j] a b Hij Hi Hj; simpl in *; try lia; try done.
        by apply (Hall i j a b ltac:(lia)).
      * intros Hall i j a b Hij Hi Hj. by apply (Hall (S i) (S j) a b ltac:(lia)).
Qed.

End SolverFacts.

(** X3.  The assertion of [Solver.__init__] passes exactly when the set
    contents of the template never increase from an earlier slot to a later
    one, dormant slots in between being skipped; otherwise construction
    fails with the assertion error on [restrict_params]. *)
Theorem solver_check_contents (template : ModelTemplate.t) :
  (Solver.check_contents template = Ok () <->
   forall i j a b, (i < j)%nat ->
     ModelTemplate.contents template !! i = Some (Some a) ->
     ModelTemplate.contents template !! j = Some (Some b) -> (b <= a)%Z)
  /\ (Solver.check_contents template = Ok ()
      \/ Solver.check_contents template
         = Raise (AssertionError
                    "model.restrict_params is broken for increasing feature sizes")).
Proof.
  unfold Solver.check_contents, py_assert. split.
  - rewrite <- SolverFacts.set_contents_descending,
      <- SolverFacts.nonincreasing_descending.
    by destruct (Solver.nonincreasing _).
  - destruct (Solver.nonincreasing _); [by left|by right].
Qed.

(** Contents [4, None, 4, 2] pass; [2, None, 3] do not. *)
Example solver_check_contents_examples :
  Solver.check_contents
    (ModelTemplate.Build [4; 4; 4; 2]%Z [Some 4; None; Some 4; Some 2]%Z false) = Ok ()
  /\ Solver.check_contents
       (ModelTemplate.Build [4; 4; 4]%Z [Some 2; None; Some 3]%Z false)
     = Raise (AssertionError
                "model.restrict_params is broken for increasing feature sizes").
Proof. split; reflexivity. Qed.

(** ** Growth: rebuilding evaluators, applying and proposing modifications *)

Lemma in_out_indices_undefined (self : ModelTemplate.t) (layer_index : Z) :
  (0 <= layer_index)%Z ->
  (forall j, (layer_index < j)%Z -> ~ enabled_at self j) ->
  ModelTemplate.in_out_indices self layer_index = Raise IndexError.
Proof.
  intros Hli Hnone. unfold ModelTemplate.in_out_indices, ModelTemplate.nonzero.
  cbv zeta. unfold Py.slice_from at 1. rewrite (proj2 (Z.leb_le _ _)) by lia.
  rewrite (TemplateFacts.positions_nil_intro ModelTemplate.is_set 0
             (drop (Z.to_nat (layer_index + 1)) (ModelTemplate.contents self)));
    [done|].
  intros k d Hk. rewrite lookup_drop in Hk.
  destruct d as [w|]; [|done]. exfalso.
  apply (Hnone (Z.of_nat (Z.to_nat (layer_index + 1) + k))); [lia|].
  split; [lia|]. exists w. by rewrite Nat2Z.id.
Qed.

Lemma mapM_res_raise {A B} (f : A -> res B) (e : exn) (l : list A) :
  (exists x, x ∈ l /\ f x = Raise e) ->
  (forall x, x ∈ l -> (exists y, f x = Ok y) \/ f x = Raise e) ->
  mapM f l = Raise e.
Proof.
  induction l as [|x l IH]; intros (x0 & Hin & Hx0) Hall.
  - by apply elem_of_nil in Hin.
  - simpl. destruct (Hall x ltac:(by left)) as [[y Hy]|Hx]; [|by rewrite Hx].
    rewrite Hy. simpl. rewrite IH; [done| |].
    + apply elem_of_cons in Hin as [->|Hin]; [congruence|]. by exists x0.
    + intros x' Hx'. apply Hall. by right.
Qed.

Section RefreshFacts.
Context {Params : Type}.

(** X4.  [refresh_evaluators] rebuilds the evaluator of every dormant slot
    before the final one and, unless [layer_only], of every other slot
    before the final one.  It succeeds when each rebuilt site has an
    enabled slot after it and raises [IndexError] when some rebuilt site
    has none; in both cases the store is left as it is. *)
Theorem refresh_evaluators_spec (layer_only : bool) (w : Growth.World Params) :
  let contents := ModelTemplate.contents (Growth.template w) in
  let rebuilt (i : nat) :=
    (S i < length contents)%nat
    /\ (contents !! i = Some None \/ layer_only = false) in
  ((forall i, rebuilt i ->
      exists j, (Z.of_nat i < j)%Z /\ enabled_at (Growth.template w) j) ->
   Growth.refresh_evaluators layer_only w = (Ok (), w))
  /\ ((exists i, rebuilt i /\
         forall j, (Z.of_nat i < j)%Z -> ~ enabled_at (Growth.template w) j) ->
      Growth.refresh_evaluators layer_only w = (Raise IndexError, w)).
Proof.
  intros contents rebuilt.
  set (site := fun '((layer_index, con) : Z * option Z) =>
         match con with
         | None => ModelTemplate.in_out_indices (Growth.template w) layer_index
         | Some _ =>
             if layer_only then Ok (0%Z, 0%Z)
             else ModelTemplate.in_out_indices (Growth.template w) layer_index
         end).
  set (sites := imap (fun i (con : option Z) => (Z.of_nat i, con))
                  (Py.slice_to contents (-1))).
  assert (Hrun : Growth.refresh_evaluators layer_only w
                 = (match mapM site sites with
                    | Ok _ => Ok ()
                    | Raise e => Raise e
                    end, w)).
  { unfold Growth.refresh_evaluators, mbind, Growth.run_bind, Growth.get,
      Growth.lift, mret, Growth.run_ret.
    fold contents sites site. by destruct (mapM site sites). }
  assert (Hsites : forall x, x ∈ sites <->
            exists i con, x = (Z.of_nat i, con) /\ (S i < length contents)%nat
                          /\ contents !! i = Some con).
  { intros x. unfold sites. rewrite elem_of_lookup_imap.
    unfold Py.slice_to. simpl. split.
    - intros (i & con & -> & Hi). apply lookup_take_Some in Hi as [Hi Hlt].
      exists i, con. split; [done|]. split; [lia|done].
    - intros (i & con & -> & Hlt & Hi). exists i, con. split; [done|].
      rewrite lookup_take_lt by lia. done. }
  assert (Hcases : forall x, x ∈ sites ->
            (exists y, site x = Ok y) \/ site x = Raise IndexError).
  { intros x (i & con & -> & Hlt & Hi)%Hsites. unfold site.
    destruct con as [c|]; [destruct layer_only; [left; by eexists|]|];
      (destruct (ModelTemplate.in_out_indices (Growth.template w) (Z.of_nat i))
         as [io|e] eqn:Hio; [left; by eexists|]; right;
       unfold ModelTemplate.in_out_indices in Hio; cbv zeta in Hio;
       destruct (head _); [done|by injection Hio as <-]). }
  rewrite Hrun. split.
  - intros Hall.
    destruct (mapM_res_Forall2 site (fun _ _ => True) sites) as (ys & -> & _); [|done].
    intros x Hx. pose proof Hx as (i & con & -> & Hlt & Hi)%Hsites. unfold site.
    destruct con as [c|]; [destruct layer_only; [by eexists|]|].
    + destruct (in_out_indices_defined (Growth.template w) (Z.of_nat i)) as [io ->];
        [lia| |by eexists].
      apply Hall. split; [done|by right].
    + destruct (in_out_indices_defined (Growth.template w) (Z.of_nat i)) as [io ->];
        [lia| |by eexists].
      apply Hall. split; [done|by left].
  - intros (i & [Hlt Hkind] & Hnone).
    rewrite (mapM_res_raise site IndexError sites); [done| |exact Hcases].
    destruct (lookup_lt_is_Some_2 contents i) as [con Hcon]; [lia|].
    exists (Z.of_nat i, con). split.
    + apply Hsites. by exists i, con.
    + unfold site.
      pose proof (in_out_indices_undefined (Growth.template w) (Z.of_nat i)
                    ltac:(lia) Hnone) as Hraise.
      destruct con as [c|]; [|done].
      destruct Hkind as [Hnone' | ->]; [congruence|done].
Qed.

End RefreshFacts.

Lemma refresh_evaluators_store {Params} (layer_only : bool) (w : Growth.World Params) :
  (Growth.refresh_evaluators layer_only w).2 = w.
Proof.
  unfold Growth.refresh_evaluators, mbind, Growth.run_bind, Growth.get,
    Growth.lift, mret, Growth.run_ret.
  by destruct (mapM _ _).
Qed.

Lemma getitem_cases {A} (l : list A) (i : Z) :
  (exists p x, Py.position (length l) i = Ok p /\ l !! p = Some x
               /\ Py.getitem l i = Ok x)
  \/ (Py.position (length l) i = Raise IndexError /\ Py.getitem l i = Raise IndexError).
Proof.
  unfold Py.getitem.
  destruct (Py.position (length l) i) as [p|e] eqn:Hp.
  - left. pose proof (position_lookup l i p Hp) as Hlt.
    destruct (lookup_lt_is_Some_2 l p Hlt) as [x Hx].
    exists p, x. simpl. by rewrite Hx.
  - right. unfold Py.position in Hp.
    repeat (case_match; simplify_eq/=). done.
Qed.

Section ApplyFacts.
Context {Params Feature : Type} `{!Nets Params Feature}.
Variable batch_loss : State Params -> fl.

(** X5.  Applying a modification either fails its site check and leaves
    the store untouched, or commits: the store then holds the
    modification's state and the template with the one content replaced
    (the site's content plus one for a width modification, the content of
    the slot before the site, or the model's input size at site 0, for a
    depth modification), whatever the later steps of the call return.
    Capacities, the other contents and the two counters never change. *)
Theorem apply_store_effects (w : Growth.World Params) (ratio : fl)
    (layer_index : Z) (new_state : State Params) :
  let contents := ModelTemplate.contents (Growth.template w) in
  let committed p new_size :=
    Growth.BuildWorld new_state
      (ModelTemplate.Build (ModelTemplate.capacities (Growth.template w))
         (<[p := new_size]> contents) (ModelTemplate.rational (Growth.template w)))
      (Growth.save_index w) (Growth.just_added w) in
  let width :=
    Growth.WidthModification_apply batch_loss
      (Growth.BuildWidth ratio layer_index new_state) w in
  let depth :=
    Growth.DepthModification_apply batch_loss
      (Growth.BuildDepth ratio layer_index new_state) w in
  ((width = (Raise IndexError, w)
      /\ Py.getitem contents layer_index = Raise IndexError)
   \/ (width = (Raise (AssertionError no_message), w)
      /\ Py.getitem contents layer_index = Ok None)
   \/ (exists p c, Py.position (length contents) layer_index = Ok p
         /\ contents !! p = Some (Some c)
         /\ width.2 = committed p (Some (c + 1)%Z)))
  /\ ((depth = (Raise IndexError, w)
        /\ Py.getitem contents layer_index = Raise IndexError)
      \/ (depth = (Raise (AssertionError no_message), w)
          /\ exists c, Py.getitem contents layer_index = Ok (Some c))
      \/ (exists p, Py.position (length contents) layer_index = Ok p
            /\ contents !! p = Some None
            /\ depth.2
               = committed p
                   (if (0 <? layer_index)%Z then default None (contents !! pred p)
                    else Some (Proposer.get_input_size new_state 0)))).
Proof.
  intros contents committed width depth.
  destruct (getitem_cases contents layer_index)
    as [(p & x & Hp & Hx & Hget)|[Hp Hget]].
  2:{ split; left; (split; [|done]).
      - unfold width, Growth.WidthModification_apply, mbind, Growth.run_bind,
          Growth.get, Growth.lift. cbn [Growth.width_layer_index Growth.template].
        fold contents. by rewrite Hget.
      - unfold depth, Growth.DepthModification_apply, mbind, Growth.run_bind,
          Growth.get, Growth.lift. cbn [Growth.depth_layer_index Growth.template].
        fold contents. by rewrite Hget. }
  pose proof (position_lookup _ _ _ Hp) as Hplt.
  split.
  - destruct x as [c|].
    + right. right. exists p, c. split; [done|]. split; [done|].
      unfold width, Growth.WidthModification_apply, Growth.train_batch_loud.
      unfold mbind, Growth.run_bind, Growth.get, Growth.lift, mret, Growth.run_ret,
        Growth.set_solver_state, Growth.set_contents.
      cbn [Growth.width_layer_index Growth.width_new_state Growth.solver_state
           Growth.template Growth.save_index Growth.just_added].
      fold contents. rewrite Hget.
      cbn [py_assert ModelTemplate.is_set default id].
      rewrite (setitem_position contents layer_index p (Some (c + 1)%Z) Hp).
      fold (committed p (Some (c + 1)%Z)).
      pose proof (refresh_evaluators_store true (committed p (Some (c + 1)%Z))) as Hst.
      destruct (Growth.refresh_evaluators true (committed p (Some (c + 1)%Z)))
        as [[[]|e] w1]; simpl in Hst; subst w1; [|done].
      by destruct (py_assert _ _).
    + right. left. split; [|done].
      unfold width, Growth.WidthModification_apply, mbind, Growth.run_bind,
        Growth.get, Growth.lift. cbn [Growth.width_layer_index Growth.template].
      fold contents. by rewrite Hget.
  - destruct x as [c|].
    + right. left. split; [|by exists c].
      unfold depth, Growth.DepthModification_apply, mbind, Growth.run_bind,
        Growth.get, Growth.lift. cbn [Growth.depth_layer_index Growth.template].
      fold contents. by rewrite Hget.
    + right. right. exists p. split; [done|]. split; [done|].
      assert (Hprev : (0 < layer_index)%Z ->
                Py.getitem contents (layer_index - 1)
                = Ok (default None (contents !! pred p))).
      { intros Hli. unfold Py.position in Hp.
        destruct ((0 <=? layer_index)%Z && (layer_index <? Z.of_nat (length contents))%Z)
          eqn:Hin; [|repeat (case_match; simplify_eq/=); lia].
        simplify_eq. apply andb_prop in Hin as [_ Hin]. apply Z.ltb_lt in Hin.
        destruct (lookup_lt_is_Some_2 contents (pred (Z.to_nat layer_index)))
          as [ns Hns]; [lia|].
        rewrite Hns. simpl.
        apply (getitem_position contents (layer_index - 1)
                 (pred (Z.to_nat layer_index)) ns); [|done].
        unfold Py.position.
        rewrite (proj2 (andb_true_iff _ _)); [f_equal; lia|].
        split; [apply Z.leb_le|apply Z.ltb_lt]; lia. }
      unfold depth, Growth.DepthModification_apply, Growth.train_batch_loud.
      cbn [Growth.depth_layer_index Growth.depth_new_state].
      destruct (Z.ltb_spec 0 layer_index) as [Hli|Hli];
        unfold mbind, Growth.run_bind, Growth.get, Growth.lift, mret, Growth.run_ret,
          Growth.set_solver_state, Growth.set_contents;
        cbn [Growth.solver_state Growth.template Growth.save_index Growth.just_added];
        fold contents; rewrite Hget;
        cbn [py_assert ModelTemplate.is_set negb];
        rewrite ?Hprev by done;
        rewrite setitem_position with (p := p) by done;
        match goal with
        | |- context [Growth.refresh_evaluators false ?W] =>
            pose proof (refresh_evaluators_store false W) as Hst;
            destruct (Growth.refresh_evaluators false W) as [[[]|e] w1];
            simpl in Hst; subst w1; [|done]
        end;
        (destruct (Fl.geb _ _); [by destruct (py_assert _ _)|done]).
Qed.

End ApplyFacts.

Section ConsiderFacts.
Context {Params Feature : Type} `{!Nets Params Feature}.
Variable propose_width : State Params -> Z -> Z -> Growth.Selection Feature.
Variable propose_layer : State Params -> Z -> Z -> Z -> Growth.Selection Feature.
Variable cfg : Growth.Config.

Lemma embed_feature_never_exits (state : State Params) (feature : Feature)
    (layer_index : Z) :
  Proposer.embed_feature state feature layer_index <> Raise SystemExit.
Proof.
  unfold Proposer.embed_feature, py_assert.
  destruct (negb _); [|done]. simpl.
  destruct (Proposer.any _); [|done]. simpl.
  by repeat case_match.
Qed.

(** X6.  Proposing a modification never applies it: [consider_adding_width]
    and [consider_inserting_layer] leave the solver's state and the
    template as they are.  [consider_inserting_layer] leaves the whole
    store as it is.  [consider_adding_width] changes the store only at
    layer 0, where it may count one more landscape file and clear
    [just_added]; a call that returns keeps the count below 25 if it was
    below 25, and a call that exits leaves it at 25 or more. *)
Theorem consider_store_effects (w : Growth.World Params) (is_final : bool)
    (layer_index : Z) :
  let width :=
    Growth.consider_adding_width propose_width cfg is_final layer_index w in
  let depth := Growth.consider_inserting_layer propose_layer cfg layer_index w in
  (width.2 = w
   \/ (layer_index = 0%Z
       /\ width.2 = Growth.BuildWorld (Growth.solver_state w) (Growth.template w)
                      (Growth.save_index w + 1) false))
  /\ (forall x, width.1 = Ok x ->
        (Growth.save_index w < 25)%Z -> (Growth.save_index width.2 < 25)%Z)
  /\ (width.1 = Raise SystemExit -> (25 <= Growth.save_index width.2)%Z)
  /\ depth.2 = w.
Proof.
  intros width depth.
  assert (Hdepth : depth.2 = w).
  { unfold depth, Growth.consider_inserting_layer.
    unfold mbind, Growth.run_bind, Growth.get, Growth.lift, mret, Growth.run_ret.
    destruct (Py.getitem _ layer_index) as [c|e]; [|done]. simpl.
    destruct (py_assert _ _); [|done].
    destruct (ModelTemplate.in_out_indices _ _) as [[in_index out_index]|e]; [|done].
    cbn [fst snd Growth.solver_state Growth.template].
    destruct (Growth.going_to_insert _ _ _); [|done].
    by destruct (Proposer.embed_layer _ _ _ _). }
  unfold width, Growth.consider_adding_width, Growth.exit.
  unfold mbind, Growth.run_bind, Growth.get, Growth.lift, mret, Growth.run_ret,
    Growth.set_just_added, Growth.set_save_index.
  destruct (ModelTemplate.in_out_indices _ _) as [[in_index out_index]|e] eqn:Hio.
  2:{ cbn [fst snd]. split; [by left|]. split; [by intros x ?|]. split; [|done].
      intros Heq. injection Heq as ->.
      unfold ModelTemplate.in_out_indices in Hio. cbv zeta in Hio.
      by destruct (head _). }
  cbn [fst snd Growth.solver_state Growth.template Growth.save_index Growth.just_added].
  set (sel := propose_width (Growth.solver_state w) layer_index in_index).
  pose proof (embed_feature_never_exits (Growth.solver_state w)
                (Growth.best_feature sel) layer_index) as Hembed.
  destruct (Growth.going_to_add cfg sel) eqn:Hgate;
    destruct (Growth.just_added w) eqn:Hja;
    destruct is_final;
    destruct (Z.eqb_spec layer_index 0) as [Hli|Hli];
    destruct (Z.leb_spec 25 (Growth.save_index w + 1)) as [Hsave|Hsave];
    cbn [orb andb fst snd Growth.solver_state Growth.save_index];
    try destruct (Proposer.embed_feature _ _ _) as [s'|e'];
    cbn [fst snd Growth.save_index];
    (split; [first [by left | right; by split]|]);
    (split; [intros x Hx Hlt; first [done | lia]|]);
    (split; [intros Hx; first [lia | congruence]|done]).
Qed.

End ConsiderFacts.

(** ** Proposer: the size of a proposed layer *)


Section LayerSizeFacts.
Context {Params Feature : Type} `{!Nets Params Feature}.


End LayerSizeFacts.


(** ** Feature optimizer, MALA variant: the step size after a run *)

Section MalaRunFacts.
Context {Feat Key : Type}.
Variable kfac_mala_burst : Feat -> Key -> fl -> fl * Feat * fl.





End MalaRunFacts.


(** ** Batch sampler: what one epoch uses *)

Lemma omap_lookup_seqZ {A} (pre rows : list A) :
  omap (fun i => (pre ++ rows) !! Z.to_nat i)
    (seqZ (Z.of_nat (length pre)) (Z.of_nat (length rows))) = rows.
Proof.
  revert pre. induction rows as [|x rows IH]; intros pre; [done|].
  change (length (x :: rows)) with (S (length rows)).
  rewrite seqZ_cons by lia. cbn [omap list_omap].
  rewrite Nat2Z.id, list_lookup_middle by done. f_equal.
  specialize (IH (pre ++ [x])). rewrite <- app_assoc in IH. simpl in IH.
  rewrite length_app in IH. simpl in IH.
  replace (Z.succ (Z.of_nat (length pre))) with (Z.of_nat (length pre + 1)) by lia.
  replace (Z.pred (Z.of_nat (S (length rows))))
    with (Z.of_nat (length rows)) by lia.
  exact IH.
Qed.

Lemma concat_windows {A} (p : list A) (b n : nat) :
  concat ((fun k => take b (drop (k * b) p)) <$> seq 0 n) = take (n * b) p.
Proof.
  induction n as [|n IH]; [done|].
  rewrite seq_S, fmap_app, concat_app, IH. simpl. rewrite app_nil_r.
  rewrite take_take_drop. f_equal. lia.
Qed.

Lemma zip_rows {A B} (d : list A) (l : list B) (w : list Z) (bd : list A) (bl : list B) :
  Forall2 (fun i x => d !! Z.to_nat i = Some x) w bd ->
  Forall2 (fun i y => l !! Z.to_nat i = Some y) w bl ->
  zip bd bl = omap (fun i => zip d l !! Z.to_nat i) w.
Proof.
  intros Hbd. revert bl. induction Hbd as [|i x w bd Hx _ IH]; intros bl Hbl.
  - by inversion Hbl.
  - inversion Hbl as [|? y ? bl' Hy Hbl']; subst. simpl.
    assert (Hxy : zip d l !! Z.to_nat i = Some (x, y)).
    { unfold zip. apply lookup_zip_with_Some. eauto. }
    rewrite Hxy. simpl. f_equal. by apply IH.
Qed.

Section SamplerEpochFacts.
Context {Key A B : Type}.
Variable permutation : Key -> Z -> list Z.
Hypothesis permutation_spec : forall key n, permutation key n ≡ₚ seqZ 0 n.

(** X9.  With a positive batch size [bs] and labels as long as the dataset,
    one run of [batches] draws exactly one key, and the yielded batches,
    read as (example, label) pairs, together with a leftover of
    [len(dataset) mod bs] pairs are a rearrangement of the dataset paired
    with its labels.  So when [bs] divides the dataset size every example
    is used exactly once, with its own label, and when [bs] exceeds the
    dataset size nothing is yielded at all. *)
Theorem sampler_epoch_coverage (self : Sampler.t Key A B) (bs : Z) :
  Sampler.batch_size self = Some bs ->
  (0 < bs)%Z ->
  length (Sampler.labels self) = length (Sampler.dataset self) ->
  let DLEN := Z.of_nat (length (Sampler.dataset self)) in
  exists yielded leftover,
    Sampler.batches permutation self
    = Ok (yielded,
          KeyIter.Build (KeyIter.keys (Sampler.key_iter self))
            (S (KeyIter.drawn (Sampler.key_iter self))))
    /\ flat_map (fun batch => zip batch.1 batch.2) yielded ++ leftover
       ≡ₚ zip (Sampler.dataset self) (Sampler.labels self)
    /\ Z.of_nat (length leftover) = (DLEN `mod` bs)%Z
    /\ ((DLEN `mod` bs = 0)%Z ->
        flat_map (fun batch => zip batch.1 batch.2) yielded
        ≡ₚ zip (Sampler.dataset self) (Sampler.labels self))
    /\ ((DLEN < bs)%Z -> yielded = []).
Proof.
  intros Hbs Hpos Hlabels DLEN.
  set (b := Z.to_nat bs).
  set (key := KeyIter.keys (Sampler.key_iter self) (KeyIter.drawn (Sampler.key_iter self))).
  set (pindices := permutation key DLEN).
  set (rows := zip (Sampler.dataset self) (Sampler.labels self)).
  set (row := fun i : Z => rows !! Z.to_nat i).
  assert (Hperm : pindices ≡ₚ seqZ 0 DLEN) by apply permutation_spec.
  assert (Hplen : length pindices = length (Sampler.dataset self)).
  { rewrite Hperm, length_seqZ. lia. }
  assert (Hrange : forall i, i ∈ pindices -> (0 <= i < DLEN)%Z).
  { intros i Hi. rewrite Hperm in Hi. apply elem_of_seqZ in Hi. lia. }
  set (nb := (DLEN `div` bs)%Z).
  assert (Hnb0 : (0 <= nb)%Z) by (apply Z.div_pos; lia).
  assert (Hnb : (nb * bs <= DLEN)%Z).
  { unfold nb. rewrite Z.mul_comm. apply Z.mul_div_le. lia. }
  set (window := fun k : nat => take b (drop (k * b) pindices)).
  destruct (mapM_res_Forall2
              (fun batch_num =>
                 let bindices := Sampler.bindices pindices bs batch_num in
                 bdataset ← Jnp.gather (Sampler.dataset self) bindices;
                 blabels ← Jnp.gather (Sampler.labels self) bindices;
                 Ok (bdataset, blabels))
              (fun (batch_num : Z) (batch : list A * list B) =>
                 zip batch.1 batch.2 = omap row (window (Z.to_nat batch_num)))
              (Py.range nb)) as (yielded & Hyielded & HF).
  { intros batch_num Hin. apply elem_of_seqZ in Hin.
    assert (Hwin : Sampler.bindices pindices bs batch_num
                   = window (Z.to_nat batch_num)).
    { unfold Sampler.bindices, Py.slice_to, Py.slice_from, window.
      rewrite (proj2 (Z.leb_le 0 (batch_num * bs))) by nia.
      rewrite (proj2 (Z.leb_le 0 bs)) by lia.
      replace (Z.to_nat (batch_num * bs)) with (Z.to_nat batch_num * b)%nat by nia.
      done. }
    cbv zeta. rewrite Hwin.
    assert (Hsub : forall i, i ∈ window (Z.to_nat batch_num) -> i ∈ pindices).
    { intros i Hi. eapply subseteq_drop, subseteq_take, Hi. }
    destruct (gather_in_range (Sampler.dataset self) (window (Z.to_nat batch_num)))
      as (bd & -> & Hbd).
    { intros i Hi. apply Hrange. by apply Hsub. }
    destruct (gather_in_range (Sampler.labels self) (window (Z.to_nat batch_num)))
      as (bl & -> & Hbl).
    { intros i Hi. rewrite Hlabels. apply Hrange. by apply Hsub. }
    exists (bd, bl). split; [done|]. by apply zip_rows. }
  assert (Hflat : flat_map (fun batch => zip batch.1 batch.2) yielded
                  = omap row (take (Z.to_nat nb * b) pindices)).
  { rewrite <- (concat_windows pindices b (Z.to_nat nb)). fold window.
    unfold Py.range, seqZ in HF. rewrite Z.sub_0_r in HF || idtac.
    apply Forall2_fmap_l in HF. revert HF. clear.
    generalize (seq 0 (Z.to_nat nb)). intros ks HF.
    induction HF as [|k batch ks batches Hk _ IH]; [done|].
    simpl. rewrite omap_app, IH. f_equal.
    rewrite Hk. by replace (Z.to_nat (Z.of_nat k + 0)) with k by lia. }
  exists yielded, (omap row (drop (Z.to_nat nb * b) pindices)).
  assert (Hall : flat_map (fun batch => zip batch.1 batch.2) yielded
                   ++ omap row (drop (Z.to_nat nb * b) pindices) ≡ₚ rows).
  { rewrite Hflat, <- omap_app, take_drop, Hperm.
    assert (Hlen : DLEN = Z.of_nat (length rows)).
    { unfold rows, DLEN. rewrite length_zip_with. lia. }
    rewrite Hlen. pose proof (omap_lookup_seqZ [] rows) as Hrows.
    change (omap row (seqZ 0 (Z.of_nat (length rows))) = rows) in Hrows.
    by rewrite Hrows. }
  assert (Hleft : length (omap row (drop (Z.to_nat nb * b) pindices))
                  = length (drop (Z.to_nat nb * b) pindices)).
  { apply Permutation_length in Hall. rewrite length_app, Hflat in Hall.
    assert (Hle : forall xs : list Z, (length (omap row xs) <= length xs)%nat).
    { induction xs as [|x xs IHxs]; [done|].
      change (omap row (x :: xs))
        with (match row x with Some y => y :: omap row xs | None => omap row xs end).
      destruct (row x); simpl; lia. }
    pose proof (Hle (take (Z.to_nat nb * b) pindices)) as H1.
    pose proof (Hle (drop (Z.to_nat nb * b) pindices)) as H2.
    assert (length rows = length pindices).
    { unfold rows. rewrite length_zip_with. lia. }
    pose proof (length_app (take (Z.to_nat nb * b) pindices)
                  (drop (Z.to_nat nb * b) pindices)) as H3.
    rewrite take_drop in H3. lia. }
  assert (Hmod : Z.of_nat (length (omap row (drop (Z.to_nat nb * b) pindices)))
                 = (DLEN `mod` bs)%Z).
  { rewrite Hleft, length_drop, Hplen.
    pose proof (Z.div_mod DLEN bs ltac:(lia)) as Hdm. fold nb in Hdm.
    unfold DLEN in *. nia. }
  split.
  { unfold Sampler.batches. rewrite Hbs. simpl. unfold Sampler.floordiv.
    rewrite (proj2 (Z.eqb_neq bs 0)) by lia. simpl.
    fold DLEN key pindices nb. cbv zeta in Hyielded. rewrite Hyielded. done. }
  split; [exact Hall|]. split; [exact Hmod|]. split.
  - intros Hzero. rewrite Hzero in Hmod.
    destruct (omap row (drop (Z.to_nat nb * b) pindices)); [|simpl in Hmod; lia].
    by rewrite app_nil_r in Hall.
  - intros Hsmall. assert (nb = 0%Z) as Hnbz by (apply Z.div_small; lia).
    apply Forall2_length in HF. unfold Py.range in HF.
    rewrite Hnbz in HF. simpl in HF. by destruct yielded.
Qed.

End SamplerEpochFacts.

Lemma sampler_epoch_coverage_witness :
  (forall key n, Synthetic.reversed key n ≡ₚ seqZ 0 n)
  /\ Sampler.batch_size Synthetic.sampler5 = Some 2%Z
  /\ (0 < 2)%Z
  /\ length (Sampler.labels Synthetic.sampler5)
     = length (Sampler.dataset Synthetic.sampler5)
  /\ exists yielded leftover,
       fst <$> Sampler.batches Synthetic.reversed Synthetic.sampler5 = Ok yielded
       /\ flat_map (fun batch => zip batch.1 batch.2) yielded ++ leftover
          ≡ₚ zip (Sampler.dataset Synthetic.sampler5) (Sampler.labels Synthetic.sampler5)
       /\ length leftover = 1%nat.
Proof.
  assert (Hrev : forall key n, Synthetic.reversed key n ≡ₚ seqZ 0 n).
  { intros key n. unfold Synthetic.reversed. apply reverse_Permutation. }
  assert (Hpos : (0 < 2)%Z) by lia.
  split; [exact Hrev|]. split; [reflexivity|]. split; [exact Hpos|].
  split; [reflexivity|].
  destruct (sampler_epoch_coverage Synthetic.reversed Hrev Synthetic.sampler5 2
              eq_refl Hpos eq_refl)
    as (yielded & leftover & Hbatches & Hall & Hlen & _).
  exists yielded, leftover. split; [by rewrite Hbatches|]. split; [exact Hall|].
  change (Z.of_nat (length leftover) = 1%Z) in Hlen. lia.
Defined.

(** ** Feature optimizer, deterministic variant: what a run returns *)

Lemma fori_iter_last {S} (n : nat) (lower : Z) (body_fun : Z -> S -> S) (val : S) :
  Lax.fori_iter (Datatypes.S n) lower body_fun val
  = body_fun (lower + Z.of_nat n)%Z (Lax.fori_iter n lower body_fun val).
Proof.
  revert lower val. induction n as [|n IH]; intros lower val.
  - simpl. by rewrite Z.add_0_r.
  - change (Lax.fori_iter (Datatypes.S (Datatypes.S n)) lower body_fun val)
      with (Lax.fori_iter (Datatypes.S n) (lower + 1)%Z body_fun (body_fun lower val)).
    rewrite IH. simpl. f_equal. lia.
Qed.

Section SgdRunFacts.
Context {Feat : Type}.
Variable kfac_single_sgd : Feat -> fl -> fl * Feat.
Variables layer_score loss_sqnorm : fl.

(** X10.  With no iteration to run ([steps <= 0]) [kfac_direct_sgd] returns
    the r-score 0.0 and the feature it was given.  With [steps >= 1] it
    returns exactly what the last call of [kfac_single_sgd] returned: the
    r-score that call measured on the feature of the state after
    [steps - 1] iterations, and the feature that call stepped to. *)
Theorem kfac_direct_sgd_returns (feature : Feat) (eps : fl) (steps : Z) :
  ((steps <= 0)%Z ->
     Sgd.kfac_direct_sgd kfac_single_sgd layer_score loss_sqnorm feature eps steps
     = (Fin 0, feature, layer_score, loss_sqnorm))
  /\ ((1 <= steps)%Z ->
      let before :=
        Lax.fori_loop 0 (steps - 1) (Sgd.body_fun kfac_single_sgd eps)
          (Sgd.init_state eps feature) in
      let last := kfac_single_sgd (Sgd.feature before) (Sgd.eps before) in
      Sgd.kfac_direct_sgd kfac_single_sgd layer_score loss_sqnorm feature eps steps
      = (last.1, last.2, layer_score, loss_sqnorm)).
Proof.
  split.
  - intros Hsteps. unfold Sgd.kfac_direct_sgd, Lax.fori_loop.
    replace (Z.to_nat (steps - 0)) with 0%nat by lia. done.
  - intros Hsteps before last.
    unfold Sgd.kfac_direct_sgd. unfold Lax.fori_loop at 1 2.
    replace (Z.to_nat (steps - 0)) with (S (Z.to_nat (steps - 1 - 0))) by lia.
    rewrite fori_iter_last.
    change (Lax.fori_iter (Z.to_nat (steps - 1 - 0)) 0 (Sgd.body_fun kfac_single_sgd eps)
              (Sgd.init_state eps feature)) with before.
    unfold Sgd.body_fun. fold last. by destruct last.
Qed.

End SgdRunFacts.

(** ** The regression loss *)

Module RegressionFacts.


End RegressionFacts.



(** A length-1 operand is broadcast, the mean of an empty array is not a
    number, and lengths 2 and 3 do not broadcast. *)
Example regression_loss_examples :
  Regression.loss_function [1]%Q [1; 3]%Q = Some (Fl.div (Fin (0 + (4 + 0))) (Fin 2))
  /\ Regression.loss_function [] [] = Some NaN
  /\ Regression.loss_function [1; 2]%Q [1; 2; 3]%Q = None.
Proof. repeat split; vm_compute; reflexivity. Qed.

(** ** The experiment drivers: rewriting one entry of a configuration file *)

Module StrFacts.


Lemma lstrip_by_all (p : N -> bool) (a b : list N) :
  Forall (fun c => p c = true) a -> Str.lstrip_by p (a ++ b) = Str.lstrip_by p b.
Proof. induction 1 as [|c a Hc _ IH]; simpl; [done|]. by rewrite Hc. Qed.


Lemma lstrip_by_head (p : N -> bool) (c : N) (s : list N) :
  p c = false -> Str.lstrip_by p (c :: s) = c :: s.
Proof. intros Hc. simpl. by rewrite Hc. Qed.

Lemma rstrip_by_cons_keep (p : N -> bool) (c : N) (t : list N) :
  p c = false -> Str.rstrip_by p (c :: t) = c :: Str.rstrip_by p t.
Proof. intros Hc. simpl. rewrite Hc. by destruct (Str.rstrip_by p t). Qed.

Lemma rstrip_by_all (p : N -> bool) (t : list N) :
  Forall (fun c => p c = true) t -> Str.rstrip_by p t = [].
Proof. induction 1 as [|c t Hc _ IH]; simpl; [done|]. by rewrite IH, Hc. Qed.

Lemma rstrip_by_app_all (p : N -> bool) (s t : list N) :
  Forall (fun c => p c = true) t -> Str.rstrip_by p (s ++ t) = Str.rstrip_by p s.
Proof.
  intros Ht. induction s as [|c s IH]; simpl.
  - by apply rstrip_by_all.
  - by rewrite IH.
Qed.

Lemma rstrip_by_app_keep (p : N -> bool) (s : list N) (c : N) (t : list N) :
  p c = false -> Str.rstrip_by p (s ++ c :: t) = s ++ c :: Str.rstrip_by p t.
Proof.
  intros Hc. induction s as [|d s IH].
  - by apply rstrip_by_cons_keep.
  - change (Str.rstrip_by p ((d :: s) ++ c :: t))
      with (match Str.rstrip_by p (s ++ c :: t) with
            | [] => if p d then [] else [d]
            | kept => d :: kept
            end).
    rewrite IH. by destruct s.
Qed.

Lemma rstrip_by_fixed (p : N -> bool) (s : list N) :
  (forall c, last s = Some c -> p c = false) -> Str.rstrip_by p s = s.
Proof.
  destruct s as [|c s _] using rev_ind; [done|].
  intros Hlast. rewrite rstrip_by_app_keep; [done|].
  apply Hlast, last_snoc.
Qed.


Lemma startswith_prefix (s pre : list N) :
  Str.startswith s pre = true <-> pre `prefix_of` s.
Proof.
  revert s. induction pre as [|p pre IH]; intros s; simpl.
  - split; [intros _; apply prefix_nil|done].
  - destruct s as [|c s].
    + split; [done|]. intros [t Ht]. done.
    + rewrite andb_true_iff, N.eqb_eq, IH. split.
      * intros [-> Hpre]. by apply prefix_cons.
      * intros [t [= -> ->]]. split; [done|]. by exists t.
Qed.


Lemma before_first_none (sep : N) (a : list N) :
  sep ∉ a -> Str.before_first sep a = a.
Proof.
  induction a as [|c a IH]; simpl; [done|].
  rewrite not_elem_of_cons. intros [Hne Hnot].
  destruct (N.eqb_spec c sep) as [->|_]; [done|]. by rewrite IH.
Qed.


Lemma before_first_sep (sep : N) (a b : list N) :
  Str.before_first sep (a ++ sep :: b) = Str.before_first sep a.
Proof.
  induction a as [|c a IH]; simpl.
  - by rewrite N.eqb_refl.
  - destruct (c =? sep)%N; [done|]. by rewrite IH.
Qed.

End StrFacts.

Module ExecuterFacts.
Import Executer.



Lemma modify_at (pre : list (list N)) (line : list N) (post : list (list N))
    (start_string v : list N) :
  Forall (fun l => line_matches start_string l = false) pre ->
  line_matches start_string line = true ->
  modify_yaml_line (pre ++ line :: post) start_string v
  = pre ++ new_line start_string v line :: post.
Proof.
  intros Hpre Hline. induction Hpre as [|l pre Hl _ IH]; simpl.
  - by rewrite Hline.
  - by rewrite Hl, IH.
Qed.

Lemma modify_split (lines : list (list N)) (start_string v : list N) :
  (Forall (fun l => line_matches start_string l = false) lines
   /\ modify_yaml_line lines start_string v = lines)
  \/ exists pre line post,
       lines = pre ++ line :: post
       /\ Forall (fun l => line_matches start_string l = false) pre
       /\ line_matches start_string line = true
       /\ modify_yaml_line lines start_string v
          = pre ++ new_line start_string v line :: post.
Proof.
  induction lines as [|l lines IH]; simpl.
  - left. by split; [constructor|].
  - destruct (line_matches start_string l) eqn:Hl.
    + right. exists [], l, lines. by repeat split; [constructor|..].
    + destruct IH as [[Hall Heq]|(pre & line & post & -> & Hpre & Hline & Heq)].
      * left. split; [by constructor|by rewrite Heq].
      * right. exists (l :: pre), line, post.
        split; [done|]. split; [by constructor|]. split; [done|by rewrite Heq].
Qed.

(** What a well-formed entry is replaced by. *)
Lemma new_line_entry (indent key rest v : list N) :
  Forall (fun c => Str.isspace c = true) indent ->
  Forall (fun c => Str.isspace c = false) key ->
  colon ∉ key ->
  line_matches key (indent ++ key ++ colon :: rest) = true
  /\ new_line key v (indent ++ key ++ colon :: rest)
     = indent ++ key ++ [colon; space] ++ v ++ [newline].
Proof.
  intros Hindent Hkey Hcolon. split.
  - unfold line_matches, Str.strip. apply StrFacts.startswith_prefix.
    rewrite StrFacts.lstrip_by_all by done.
    assert (Hhead : Str.lstrip_by Str.isspace (key ++ colon :: rest)
                    = key ++ colon :: rest).
    { destruct key as [|k0 key']; [done|].
      apply StrFacts.lstrip_by_head. by inversion Hkey. }
    rewrite Hhead, StrFacts.rstrip_by_app_keep by done.
    by apply prefix_app_r.
  - unfold new_line. f_equal.
    rewrite app_assoc, StrFacts.before_first_sep.
    rewrite StrFacts.before_first_none.
    + unfold Str.rstrip. rewrite StrFacts.rstrip_by_app_all.
      * apply StrFacts.rstrip_by_fixed. intros c Hc.
        apply bool_decide_eq_false. intros Hin.
        apply last_Some_elem_of in Hc.
        rewrite Forall_forall in Hindent, Hkey.
        specialize (Hindent c Hc). specialize (Hkey c Hin). congruence.
      * apply Forall_forall. intros c Hc. by apply bool_decide_eq_true.
    + rewrite not_elem_of_app. split; [|done].
      intros Hin. rewrite Forall_forall in Hindent.
      by specialize (Hindent colon Hin).
Qed.

End ExecuterFacts.

(** X12.  [modify_yaml_line] keeps the number of lines and changes at most
    one of them: a line that differs afterwards is the first one whose
    stripped text starts with the key, it holds the replacement, and every
    other line is as before.  When no line matches, the file is written
    back as it was read. *)
Theorem modify_yaml_line_first_match (lines : list (list N)) (start_string new_value : list N) :
  let out := Executer.modify_yaml_line lines start_string new_value in
  length out = length lines
  /\ (Forall (fun l => Executer.line_matches start_string l = false) lines -> out = lines)
  /\ forall i line,
       lines !! i = Some line -> out !! i <> Some line ->
       Executer.line_matches start_string line = true
       /\ (forall j l, (j < i)%nat -> lines !! j = Some l ->
             Executer.line_matches start_string l = false)
       /\ out !! i = Some (Executer.new_line start_string new_value line)
       /\ forall j, j <> i -> out !! j = lines !! j.
Proof.
  intros out. subst out.
  destruct (ExecuterFacts.modify_split lines start_string new_value)
    as [[Hall Heq]|(pre & line0 & post & -> & Hpre & Hline & Heq)].
  - rewrite Heq. split; [done|]. split; [done|]. intros i line Hi Hne. done.
  - rewrite Heq. split; [by rewrite !length_app|]. split.
    { intros Hall. apply Forall_app in Hall as [_ Hall].
      inversion Hall; subst. congruence. }
    intros i line Hi Hne.
    destruct (lt_eq_lt_dec i (length pre)) as [[Hlt| ->]|Hgt].
    + rewrite lookup_app_l in Hne by done. rewrite lookup_app_l in Hi by done. done.
    + rewrite list_lookup_middle in Hi by done. injection Hi as <-.
      split; [done|]. split.
      { intros j l Hj Hl. rewrite lookup_app_l in Hl by done.
        rewrite Forall_forall in Hpre. apply Hpre.
        by apply list_elem_of_lookup_2 in Hl. }
      split; [by rewrite list_lookup_middle|].
      intros j Hj. destruct (decide (j < length pre)%nat) as [Hlt|Hge].
      * by rewrite !lookup_app_l.
      * rewrite !lookup_app_r by lia.
        destruct (j - length pre)%nat as [|n] eqn:Hn; [lia|done].
    + rewrite lookup_app_r in Hne by lia. rewrite lookup_app_r in Hi by lia.
      destruct (i - length pre)%nat as [|n] eqn:Hn; [lia|done].
Qed.

(** X13.  For a key without white space and without a colon: when the
    first matching line is an entry [indent ++ key ++ ":" ++ rest] whose
    indentation is white space, [modify_yaml_line] replaces it by
    [indent ++ key ++ ": " ++ new_value ++ "\n"] and leaves the lines
    before and after it as they are. *)
Theorem modify_yaml_line_rewrites_entry (pre post : list (list N))
    (indent key rest new_value : list N) :
  Forall (fun c => Str.isspace c = true) indent ->
  Forall (fun c => Str.isspace c = false) key ->
  Executer.colon ∉ key ->
  Forall (fun l => Executer.line_matches key l = false) pre ->
  Executer.modify_yaml_line
    (pre ++ (indent ++ key ++ Executer.colon :: rest) :: post) key new_value
  = pre ++ (indent ++ key ++ [Executer.colon; Executer.space] ++ new_value
              ++ [Executer.newline]) :: post.
Proof.
  intros Hindent Hkey Hcolon Hpre.
  destruct (ExecuterFacts.new_line_entry indent key rest new_value Hindent Hkey Hcolon)
    as [Hmatch Hnew].
  rewrite ExecuterFacts.modify_at by done. by rewrite Hnew.
Qed.

Lemma modify_yaml_line_rewrites_entry_witness :
  Executer.modify_yaml_line Executer.config_lines (Str.of_string "seed") (Str.of_string "7")
  = [ Str.of_string "name: default" ++ [Executer.newline];
      Str.of_string "  seed: 7" ++ [Executer.newline];
      Str.of_string "  contents: [1]" ++ [Executer.newline] ].
Proof.
  apply (modify_yaml_line_rewrites_entry
           [Str.of_string "name: default" ++ [Executer.newline]]
           [Str.of_string "  contents: [1]" ++ [Executer.newline]]
           (Str.of_string "  ") (Str.of_string "seed")
           (Str.of_string " 0" ++ [Executer.newline]) (Str.of_string "7")).
  - repeat constructor.
  - repeat constructor.
  - vm_compute. intros Hin. repeat (inversion Hin as [|? ? ? Hin']; subst; clear Hin; rename Hin' into Hin).
  - repeat constructor.
Defined.


(** The key is matched as a prefix of the stripped line and [rstrip] takes
    the key as a set of characters: the entry of a longer key that is made
    of the same characters is replaced as well, and a matching line
    without a colon is kept in front of the new entry. *)
Example modify_yaml_line_examples :
  Executer.modify_yaml_line [Str.of_string "seeded: 1" ++ [Executer.newline]]
    (Str.of_string "seed") (Str.of_string "7")
  = [Str.of_string "seed: 7" ++ [Executer.newline]]
  /\ Executer.modify_yaml_line [Str.of_string "seed = 1"]
       (Str.of_string "seed") (Str.of_string "7")
     = [Str.of_string "seed = 1seed: 7" ++ [Executer.newline]].
Proof. split; vm_compute; reflexivity. Qed.
